(** * eBird alert scraper: a shallow embedding of [scripts/scrape_ebird.py]

    The definitions follow the source file:

    - [PyStr], [PyFloat]: the [str] methods the script calls ([strip],
      [lower], [startswith], [in]) and the builtin [float];
    - [MD5]: [hashlib.md5(...).hexdigest()];
    - [Dom]: cards as DOM fragments, with the selector forms the script
      hands to [query_selector];
    - [Re]: the regular expression of [parse_coordinates_from_url];
    - then [parse_coordinates_from_url], [extract_sighting_data],
      [validate_sighting], [login], [scrape_alerts], [create_output_json]
      and [main], under the names they have in the source.

    Modelling conventions.  A Python [str] is a [string]; the model covers
    ASCII text, on which [strip], [lower], the regular-expression class
    [\d], [float] and [str.encode()] are given exactly.  A Python [float]
    is kept as the decimal it was read from ([Dec]), which stands for the
    binary64 value nearest to it; rounding is modelled where a test
    depends on it ([nonzero], [is_finite]).  A sighting is
    the Python [dict] the script builds, a [gmap] from field names to
    values.  A card is a static DOM fragment: [inner_text()] is a field of
    each element, and queries on a card do not raise.  Calls on the page
    may raise, and so may opening and closing the browser session and
    writing the output file: every such call is given an outcome by the
    run's [World].  A raised exception is one that [except Exception]
    catches, kept as the text [str(e)].  The output file does not exist
    before the run. *)

From Stdlib Require Import ZArith NArith Ascii String List Lia.
From stdpp Require Import gmap strings list fin_maps.

Local Open Scope string_scope.

(* ===================================================================== *)
(** ** Python strings *)
(* ===================================================================== *)

Module PyStr.

(** [str.isspace] on one ASCII character: TAB, LF, VT, FF, CR, the four
    separators FS GS RS US, and the space. *)
Definition is_space (c : ascii) : bool :=
  let n := nat_of_ascii c in
  ((9 <=? n)%nat && (n <=? 13)%nat) || ((28 <=? n)%nat && (n <=? 32)%nat).

Fixpoint lstrip (s : string) : string :=
  match s with
  | String c s' => if is_space c then lstrip s' else s
  | EmptyString => EmptyString
  end.

(** [rstrip] keeps a character when it is no space or when something
    that is kept follows it. *)
Fixpoint rstrip (s : string) : string :=
  match s with
  | String c s' =>
      match rstrip s' with
      | EmptyString => if is_space c then EmptyString else String c EmptyString
      | r => String c r
      end
  | EmptyString => EmptyString
  end.

(** [s.strip()] *)
Definition strip (s : string) : string := rstrip (lstrip s).

Definition is_upper (c : ascii) : bool :=
  let n := nat_of_ascii c in (65 <=? n)%nat && (n <=? 90)%nat.

Definition lower_char (c : ascii) : ascii :=
  if is_upper c then ascii_of_nat (nat_of_ascii c + 32) else c.

(** [s.lower()] *)
Fixpoint lower (s : string) : string :=
  match s with
  | String c s' => String (lower_char c) (lower s')
  | EmptyString => EmptyString
  end.

(** [s.startswith(p)] *)
Fixpoint startswith (s p : string) : bool :=
  match p, s with
  | EmptyString, _ => true
  | String a p', String b s' => if Ascii.eqb a b then startswith s' p' else false
  | String _ _, EmptyString => false
  end.

(** [sub in s] *)
Fixpoint contains (sub s : string) : bool :=
  startswith s sub ||
  match s with
  | String _ s' => contains sub s'
  | EmptyString => false
  end.

(** Truth value of a [str]: non-empty. *)
Definition truthy (s : string) : bool :=
  match s with EmptyString => false | _ => true end.

Definition is_digit (c : ascii) : bool :=
  let n := nat_of_ascii c in (48 <=? n)%nat && (n <=? 57)%nat.

Definition digit_val (c : ascii) : N := N.of_nat (nat_of_ascii c - 48).

(** The longest prefix of decimal digits, and what follows it. *)
Fixpoint span_digits (s : string) : string * string :=
  match s with
  | String c s' =>
      if is_digit c
      then let '(ds, rest) := span_digits s' in (String c ds, rest)
      else (EmptyString, s)
  | EmptyString => (EmptyString, EmptyString)
  end.

(** Every character of [s] passes [p]. *)
Fixpoint all_chars (p : ascii -> bool) (s : string) : bool :=
  match s with
  | String c s' => p c && all_chars p s'
  | EmptyString => true
  end.

(** A digit, or a letter from [a] to [f]. *)
Definition is_hex_char (c : ascii) : bool :=
  is_digit c || ((97 <=? nat_of_ascii c)%nat && (nat_of_ascii c <=? 102)%nat).

End PyStr.

(* ===================================================================== *)
(** ** MD5 ([hashlib.md5], RFC 1321) *)
(* ===================================================================== *)

Module MD5.
Local Open Scope Z_scope.

Definition wrap32 (x : Z) : Z := x mod 2 ^ 32.
Definition add32 (x y : Z) : Z := wrap32 (x + y).
Definition not32 (x : Z) : Z := Z.lxor x 0xffffffff.
Definition rotl32 (x n : Z) : Z :=
  Z.lor (wrap32 (Z.shiftl x n)) (Z.shiftr x (32 - n)).

(** Per-round shift amounts. *)
Definition S_table : list Z :=
  [ 7; 12; 17; 22;  7; 12; 17; 22;  7; 12; 17; 22;  7; 12; 17; 22;
    5;  9; 14; 20;  5;  9; 14; 20;  5;  9; 14; 20;  5;  9; 14; 20;
    4; 11; 16; 23;  4; 11; 16; 23;  4; 11; 16; 23;  4; 11; 16; 23;
    6; 10; 15; 21;  6; 10; 15; 21;  6; 10; 15; 21;  6; 10; 15; 21 ].

(** [K_table[i] = floor (2^32 * abs (sin (i + 1)))]. *)
Definition K_table : list Z :=
  [ 0xd76aa478; 0xe8c7b756; 0x242070db; 0xc1bdceee;
    0xf57c0faf; 0x4787c62a; 0xa8304613; 0xfd469501;
    0x698098d8; 0x8b44f7af; 0xffff5bb1; 0x895cd7be;
    0x6b901122; 0xfd987193; 0xa679438e; 0x49b40821;
    0xf61e2562; 0xc040b340; 0x265e5a51; 0xe9b6c7aa;
    0xd62f105d; 0x02441453; 0xd8a1e681; 0xe7d3fbc8;
    0x21e1cde6; 0xc33707d6; 0xf4d50d87; 0x455a14ed;
    0xa9e3e905; 0xfcefa3f8; 0x676f02d9; 0x8d2a4c8a;
    0xfffa3942; 0x8771f681; 0x6d9d6122; 0xfde5380c;
    0xa4beea44; 0x4bdecfa9; 0xf6bb4b60; 0xbebfbc70;
    0x289b7ec6; 0xeaa127fa; 0xd4ef3085; 0x04881d05;
    0xd9d4d039; 0xe6db99e5; 0x1fa27cf8; 0xc4ac5665;
    0xf4292244; 0x432aff97; 0xab9423a7; 0xfc93a039;
    0x655b59c3; 0x8f0ccc92; 0xffeff47d; 0x85845dd1;
    0x6fa87e4f; 0xfe2ce6e0; 0xa3014314; 0x4e0811a1;
    0xf7537e82; 0xbd3af235; 0x2ad7d2bb; 0xeb86d391 ].

Record state := State { sa : Z; sb : Z; sc : Z; sd : Z }.

Definition init : state :=
  State 0x67452301 0xefcdab89 0x98badcfe 0x10325476.

(** The round function and the index of the message word it mixes in. *)
Definition mix (i : nat) (b c d : Z) : Z * nat :=
  if (i <? 16)%nat then
    (Z.lor (Z.land b c) (Z.land (not32 b) d), i)
  else if (i <? 32)%nat then
    (Z.lor (Z.land d b) (Z.land (not32 d) c), ((5 * i + 1) mod 16)%nat)
  else if (i <? 48)%nat then
    (Z.lxor (Z.lxor b c) d, ((3 * i + 5) mod 16)%nat)
  else
    (Z.lxor c (Z.lor b (not32 d)), ((7 * i) mod 16)%nat).

Definition step (M : list Z) (st : state) (i : nat) : state :=
  let '(f, g) := mix i (sb st) (sc st) (sd st) in
  let f' := add32 (add32 (add32 f (sa st)) (nth i K_table 0)) (nth g M 0) in
  State (sd st) (add32 (sb st) (rotl32 f' (nth i S_table 0))) (sb st) (sc st).

(** Four bytes, least significant first, as one word; and back. *)
Definition word_of_bytes (bs : list Z) : Z :=
  nth 0 bs 0 + 2 ^ 8 * nth 1 bs 0 + 2 ^ 16 * nth 2 bs 0 + 2 ^ 24 * nth 3 bs 0.

Definition bytes_of_word (w : Z) : list Z :=
  [ w mod 256; (w / 2 ^ 8) mod 256; (w / 2 ^ 16) mod 256; (w / 2 ^ 24) mod 256 ].

(** The sixteen words of a 64-byte block. *)
Definition words_of_block (blk : list Z) : list Z :=
  map (fun k => word_of_bytes (firstn 4 (skipn (4 * k) blk))) (seq 0 16).

Definition compress (st : state) (blk : list Z) : state :=
  let r := fold_left (step (words_of_block blk)) (seq 0 64) st in
  State (add32 (sa st) (sa r)) (add32 (sb st) (sb r))
        (add32 (sc st) (sc r)) (add32 (sd st) (sd r)).

(** The message, one 0x80 byte, zeros up to 56 modulo 64, and the length
    in bits on eight bytes, least significant first. *)
Definition pad (msg : list Z) : list Z :=
  let len := Z.of_nat (length msg) in
  let zeros := Z.to_nat ((55 - len) mod 64) in
  msg ++ [0x80] ++ repeat 0 zeros
      ++ map (fun k => ((8 * len) / 2 ^ (8 * Z.of_nat k)) mod 256) (seq 0 8).

Fixpoint blocks (n : nat) (bs : list Z) (st : state) : state :=
  match n with
  | O => st
  | S n' => blocks n' (skipn 64 bs) (compress st (firstn 64 bs))
  end.

Definition digest (msg : list Z) : list Z :=
  let p := pad msg in
  let r := blocks (length p / 64) p init in
  bytes_of_word (sa r) ++ bytes_of_word (sb r)
    ++ bytes_of_word (sc r) ++ bytes_of_word (sd r).

Definition hex_digit (n : Z) : ascii :=
  if n <? 10 then ascii_of_nat (48 + Z.to_nat n)
  else ascii_of_nat (87 + Z.to_nat n).

Fixpoint hex (bs : list Z) : string :=
  match bs with
  | b :: bs' => String (hex_digit (b / 16)) (String (hex_digit (b mod 16)) (hex bs'))
  | [] => EmptyString
  end.

(** [s.encode()]: the bytes of an ASCII string. *)
Fixpoint encode (s : string) : list Z :=
  match s with
  | String c s' => Z.of_nat (nat_of_ascii c) :: encode s'
  | EmptyString => []
  end.

(** [hashlib.md5(s.encode()).hexdigest()] *)
Definition hexdigest (s : string) : string := hex (digest (encode s)).

End MD5.

(* ===================================================================== *)
(** ** Python values: [float], [None], exceptions *)
(* ===================================================================== *)

(** A [float]: [Dec neg m e] is the binary64 value nearest to
    [(-1)^neg * m * 10^e], written with [m] free of trailing zeros. *)
Inductive pyfloat :=
| Dec (neg : bool) (m : N) (e : Z)
| Inf (neg : bool)
| NaN.

(** The values a sighting holds. *)
Inductive pyval :=
| VStr (s : string)
| VFloat (x : pyfloat)
| VNone.

Global Instance pyfloat_eq_dec : EqDecision pyfloat.
Proof. solve_decision. Defined.

Global Instance pyval_eq_dec : EqDecision pyval.
Proof. solve_decision. Defined.

(** The outcome of a call that may raise; [Raise e] carries [str(e)]. *)
Inductive res (A : Type) :=
| Ok (a : A)
| Raise (e : string).
Arguments Ok {A} a.
Arguments Raise {A} e.

Global Instance res_ret : MRet res := fun _ a => Ok a.
Global Instance res_bind : MBind res := fun _ _ f r =>
  match r with
  | Ok a => f a
  | Raise e => Raise e
  end.

Module PyFloat.
Import PyStr.

(** The white space [float] skips around an ASCII argument. *)
Definition is_c_space (c : ascii) : bool :=
  let n := nat_of_ascii c in
  ((9 <=? n)%nat && (n <=? 13)%nat) || (n =? 32)%nat.

Fixpoint lskip (s : string) : string :=
  match s with
  | String c s' => if is_c_space c then lskip s' else s
  | EmptyString => EmptyString
  end.

Fixpoint rskip (s : string) : string :=
  match s with
  | String c s' =>
      match rskip s' with
      | EmptyString => if is_c_space c then EmptyString else String c EmptyString
      | r => String c r
      end
  | EmptyString => EmptyString
  end.

(** An underscore is accepted between two digits only; accepted ones
    are dropped.  [prev] is the character just read. *)
Fixpoint drop_underscores (prev : ascii) (s : string) : option string :=
  match s with
  | String c s' =>
      if Ascii.eqb c "_" then
        if is_digit prev then drop_underscores c s' else None
      else if Ascii.eqb prev "_" && negb (is_digit c) then None
      else String c <$> drop_underscores c s'
  | EmptyString => if Ascii.eqb prev "_" then None else Some EmptyString
  end.

Definition split_sign (s : string) : bool * string :=
  match s with
  | String "-" s' => (true, s')
  | String "+" s' => (false, s')
  | _ => (false, s)
  end.

Fixpoint digits_value (acc : N) (s : string) : N :=
  match s with
  | String c s' => digits_value (10 * acc + digit_val c) s'
  | EmptyString => acc
  end.

(** The digits without their trailing zeros, and how many were dropped. *)
Fixpoint drop_trailing_zeros (s : string) : string * Z :=
  match s with
  | String c s' =>
      let '(r, k) := drop_trailing_zeros s' in
      match r with
      | EmptyString =>
          if Ascii.eqb c "0" then (EmptyString, (k + 1)%Z)
          else (String c EmptyString, k)
      | _ => (String c r, k)
      end
  | EmptyString => (EmptyString, 0%Z)
  end.

Definition make_dec (neg : bool) (digits : string) (e : Z) : pyfloat :=
  let '(r, k) := drop_trailing_zeros digits in
  let m := digits_value 0 r in
  if (m =? 0)%N then Dec neg 0 0 else Dec neg m (e + k).

(** An exponent part [e|E [sign] digits] that ends the text, or no
    exponent part at all. *)
Definition exponent (s : string) : option Z :=
  match s with
  | EmptyString => Some 0%Z
  | String c s' =>
      if Ascii.eqb c "e" || Ascii.eqb c "E" then
        let '(neg, s1) := split_sign s' in
        let '(ds, rest) := span_digits s1 in
        if truthy ds && negb (truthy rest) then
          let v := Z.of_N (digits_value 0 ds) in
          Some (if neg then (- v)%Z else v)
        else None
      else None
  end.

Definition decimal (neg : bool) (s : string) : option pyfloat :=
  let '(d1, s1) := span_digits s in
  let '(d2, s2) :=
    match s1 with
    | String "." s' => span_digits s'
    | _ => (EmptyString, s1)
    end in
  if truthy (d1 ++ d2) then
    e ← exponent s2;
    Some (make_dec neg (d1 ++ d2) (e - Z.of_nat (String.length d2)))
  else None.

(** [float(s)] for a [str]; [None] is [ValueError]. *)
Definition parse (s : string) : option pyfloat :=
  body ← drop_underscores "000" (rskip (lskip s));
  let '(neg, t) := split_sign body in
  let w := lower t in
  if String.eqb w "inf" || String.eqb w "infinity" then Some (Inf neg)
  else if String.eqb w "nan" then Some NaN
  else decimal neg t.

(** [x != 0.0], that is: [x] does not round to zero.  The least
    positive binary64 value is [2^-1074]; a decimal of magnitude at
    most [2^-1075] rounds to zero. *)
Definition nonzero (x : pyfloat) : bool :=
  match x with
  | Dec _ m e =>
      if (m =? 0)%N then false
      else if (0 <=? e)%Z then true
      else negb (Z.of_N m * 2 ^ 1075 <=? 10 ^ (- e))%Z
  | Inf _ | NaN => true
  end.

(** [math.isfinite(x)].  The greatest binary64 value is
    [2^1024 - 2^971]; a decimal of magnitude [2^1024 - 2^970] or more
    rounds to infinity. *)
Definition is_finite (x : pyfloat) : bool :=
  match x with
  | Dec _ m e =>
      if (0 <=? e)%Z then (Z.of_N m * 10 ^ e <? 2 ^ 1024 - 2 ^ 970)%Z
      else (Z.of_N m <? (2 ^ 1024 - 2 ^ 970) * 10 ^ (- e))%Z
  | Inf _ | NaN => false
  end.

End PyFloat.

(** [float(s)], raising [ValueError]. *)
Definition float (s : string) : res pyfloat :=
  match PyFloat.parse s with
  | Some x => Ok x
  | None => Raise ("could not convert string to float: " ++ s)
  end.

(* ===================================================================== *)
(** ** Cards: DOM fragments and the selectors the script queries *)
(* ===================================================================== *)

Module Dom.
Import PyStr.

(** An element: its tag, its attributes, the text [inner_text()] gives
    for it, and its child elements in document order. *)
#[warnings="-register-all"]
Inductive node :=
| Node (tag : string) (attrs : gmap string string)
       (text : string) (children : list node).

Definition tag (n : node) : string := let '(Node t _ _ _) := n in t.
Definition attrs (n : node) : gmap string string := let '(Node _ a _ _) := n in a.
Definition inner_text (n : node) : string := let '(Node _ _ t _) := n in t.
Definition children (n : node) : list node := let '(Node _ _ _ c) := n in c.

(** [elem.get_attribute(name)]: the value, or [None]. *)
Definition get_attribute (n : node) (name : string) : option string :=
  attrs n !! name.

(** One alternative of a selector group, in the forms the script uses. *)
Inductive simple_selector :=
| ByClass (c : string)                    (* .c          *)
| ByTag (t : string)                      (* t           *)
| ByAttr (a v : string)                   (* [a*='v']    *)
| ByTagAttr (t a v : string).             (* t[a*='v']   *)

(** A comma-separated group. *)
Definition selector := list simple_selector.

(** White space that separates class names. *)
Definition is_html_space (c : ascii) : bool :=
  let n := nat_of_ascii c in
  (n =? 9)%nat || (n =? 10)%nat || (n =? 12)%nat || (n =? 13)%nat || (n =? 32)%nat.

(** The class names of a [class] attribute; [cur] is the name being
    read. *)
Fixpoint class_names (cur : string) (s : string) : list string :=
  match s with
  | String c s' =>
      if is_html_space c
      then (if truthy cur then [cur] else []) ++ class_names EmptyString s'
      else class_names (cur ++ String c EmptyString) s'
  | EmptyString => if truthy cur then [cur] else []
  end.

Definition has_class (n : node) (c : string) : bool :=
  match get_attribute n "class" with
  | Some v => existsb (String.eqb c) (class_names EmptyString v)
  | None => false
  end.

(** [[a*='v']]: the attribute is there and [v], not empty, occurs in
    its value. *)
Definition attr_contains (n : node) (a v : string) : bool :=
  match get_attribute n a with
  | Some x => truthy v && contains v x
  | None => false
  end.

Definition matches_simple (n : node) (s : simple_selector) : bool :=
  match s with
  | ByClass c => has_class n c
  | ByTag t => String.eqb (tag n) t
  | ByAttr a v => attr_contains n a v
  | ByTagAttr t a v => String.eqb (tag n) t && attr_contains n a v
  end.

Definition matches (sel : selector) (n : node) : bool :=
  existsb (matches_simple n) sel.

(** The first element matching [sel] among [n] and its descendants, in
    document order. *)
Fixpoint first_match (sel : selector) (n : node) : option node :=
  if matches sel n then Some n
  else
    (fix among (l : list node) : option node :=
       match l with
       | c :: l' =>
           match first_match sel c with
           | Some r => Some r
           | None => among l'
           end
       | [] => None
       end) (children n).

Fixpoint first_among (sel : selector) (l : list node) : option node :=
  match l with
  | c :: l' =>
      match first_match sel c with
      | Some r => Some r
      | None => first_among sel l'
      end
  | [] => None
  end.

(** [card.query_selector(sel)]: the first descendant of [card] that
    matches, or [None]. *)
Definition query_selector (card : node) (sel : selector) : option node :=
  first_among sel (children card).

(** An element followed by its descendants, in document order. *)
Fixpoint subtree (n : node) : list node :=
  n :: (fix below (l : list node) : list node :=
          match l with
          | c :: l' => (subtree c ++ below l')%list
          | [] => []
          end) (children n).

Definition descendants (card : node) : list node :=
  flat_map subtree (children card).

End Dom.

Import Dom.

(* ===================================================================== *)
(** ** The scraper *)
(* ===================================================================== *)

(** *** [parse_coordinates_from_url] *)

Module Re.
Import PyStr.

(** [[@q=]]: one character out of three. *)
Definition in_class (c : ascii) : bool :=
  Ascii.eqb c "@" || Ascii.eqb c "q" || Ascii.eqb c "=".

(** [-?\d+\.\d+] at the head of [s]: the text matched and what follows.
    Both [\d+] take every digit there is: the character after them must
    be no digit, so giving digits back never helps. *)
Definition number (s : string) : option (string * string) :=
  let '(sign, s1) :=
    match s with
    | String "-" s' => ("-", s')
    | _ => ("", s)
    end in
  let '(d1, s2) := span_digits s1 in
  if truthy d1 then
    match s2 with
    | String "." s3 =>
        let '(d2, s4) := span_digits s3 in
        if truthy d2 then Some (sign ++ d1 ++ "." ++ d2, s4) else None
    | _ => None
    end
  else None.

(** The characters a match of [-?\d+\.\d+] is made of. *)
Definition number_char (c : ascii) : bool :=
  is_digit c || Ascii.eqb c "-" || Ascii.eqb c ".".

(** [(-?\d+\.\d+),(-?\d+\.\d+)] at the head of [s]: groups 1 and 2. *)
Definition two_numbers (s : string) : option (string * string) :=
  match number s with
  | Some (g1, String "," s2) =>
      match number s2 with
      | Some (g2, _) => Some (g1, g2)
      | None => None
      end
  | _ => None
  end.

(** The whole pattern at the head of [s]. *)
Definition match_here (s : string) : option (string * string) :=
  match s with
  | String c s1 => if in_class c then two_numbers s1 else None
  | EmptyString => None
  end.

(** [re.search(pattern, s)]: the leftmost match. *)
Fixpoint search (s : string) : option (string * string) :=
  match match_here s with
  | Some g => Some g
  | None =>
      match s with
      | String _ s' => search s'
      | EmptyString => None
      end
  end.

(** The pattern as the comment above it in the source words it, and the
    specification after it: ["@"] or ["q="], then the two numbers. *)
Definition documented_match_here (s : string) : option (string * string) :=
  match s with
  | String "@" s1 => two_numbers s1
  | String "q" (String "=" s1) => two_numbers s1
  | _ => None
  end.

Fixpoint documented_search (s : string) : option (string * string) :=
  match documented_match_here s with
  | Some g => Some g
  | None =>
      match s with
      | String _ s' => documented_search s'
      | EmptyString => None
      end
  end.

End Re.

Definition parse_coordinates_from_url (url : option string)
  : res (option (pyfloat * pyfloat)) :=
  match url with
  | None => Ok None
  | Some u =>
      if negb (PyStr.truthy u) then Ok None
      else
        match Re.search u with
        | Some (g1, g2) =>
            lat ← float g1;
            lng ← float g2;
            Ok (Some (lat, lng))
        | None => Ok None
        end
  end.

(** *** [extract_sighting_data] *)

(** The selector groups of the extractor, in source order. *)
Definition species_selector : selector :=
  [ByClass "Heading-main"; ByClass "species-name"; ByTag "h3"; ByTag "h4"].
Definition scientific_selector : selector :=
  [ByTag "em"; ByClass "scientific-name"; ByClass "species-scientific"].
Definition location_selector : selector :=
  [ByClass "Observation-location"; ByClass "location"; ByAttr "class" "location"].
Definition date_selector : selector :=
  [ByClass "Observation-meta-date"; ByClass "date"; ByAttr "class" "date"].
Definition time_selector : selector :=
  [ByClass "time"; ByAttr "class" "time"].
Definition observer_selector : selector :=
  [ByClass "Observation-meta-user"; ByClass "observer"; ByAttr "class" "user"].
Definition count_selector : selector :=
  [ByClass "count"; ByAttr "class" "count"].
Definition rarity_selector : selector :=
  [ByClass "rare"; ByClass "notable"; ByClass "review"; ByAttr "class" "rarity"].
Definition checklist_selector : selector :=
  [ByTagAttr "a" "href" "checklist"].
Definition map_selector : selector :=
  [ByTagAttr "a" "href" "google.com/maps"; ByTagAttr "a" "href" "maps.google"].

(** [await elem.inner_text() if elem else default] *)
Definition text_or (elem : option node) (default : string) : string :=
  match elem with
  | Some e => inner_text e
  | None => default
  end.

(** [float(attr) if attr else None] *)
Definition float_or_none (attr : option string) : res pyval :=
  match attr with
  | Some a => if PyStr.truthy a then x ← float a; Ok (VFloat x) else Ok VNone
  | None => Ok VNone
  end.

(** The value stored under ["checklist_url"]. *)
Definition checklist_url (checklist_link : option node) : pyval :=
  match checklist_link with
  | Some link =>
      match get_attribute link "href" with
      | Some href =>
          if PyStr.truthy href && negb (PyStr.startswith href "http")
          then VStr ("https://ebird.org" ++ href)
          else VStr href
      | None => VNone
      end
  | None => VStr ""
  end.

(** [hashlib.md5(id_string.encode()).hexdigest()[:12]] *)
Definition make_id (id_string : string) : string :=
  String.substring 0 12 (MD5.hexdigest id_string).

(** The body of the [try] block.  The three values the identifier reads
    back from the dict are the strings stored a few lines before. *)
Definition extract_fields (card : node) : res (gmap string pyval) :=
  let sighting : gmap string pyval := ∅ in
  let species_elem := query_selector card species_selector in
  let common_name := text_or species_elem "Unknown" in
  let sighting := <["species_common_name" := VStr common_name]> sighting in
  let scientific_elem := query_selector card scientific_selector in
  let sighting :=
    <["species_scientific_name" := VStr (text_or scientific_elem "")]> sighting in
  let location_elem := query_selector card location_selector in
  let location := text_or location_elem "Unknown" in
  let sighting := <["location" := VStr location]> sighting in
  let date_elem := query_selector card date_selector in
  let date_text := text_or date_elem "" in
  let date := PyStr.strip date_text in
  let sighting := <["date" := VStr date]> sighting in
  let time_elem := query_selector card time_selector in
  let sighting := <["time" := VStr (text_or time_elem "")]> sighting in
  let observer_elem := query_selector card observer_selector in
  let sighting := <["observer" := VStr (text_or observer_elem "Unknown")]> sighting in
  let count_elem := query_selector card count_selector in
  let sighting := <["count" := VStr (text_or count_elem "1")]> sighting in
  let rarity_elem := query_selector card rarity_selector in
  let rarity_level := text_or rarity_elem "notable" in
  let sighting :=
    <["rarity_level" := VStr (PyStr.strip (PyStr.lower rarity_level))]> sighting in
  let checklist_link := query_selector card checklist_selector in
  let sighting := <["checklist_url" := checklist_url checklist_link]> sighting in
  let lat_elem := get_attribute card "data-lat" in
  let lng_elem := get_attribute card "data-lng" in
  latitude ← float_or_none lat_elem;
  longitude ← float_or_none lng_elem;
  coords ←
    match latitude with
    | VNone =>
        match query_selector card map_selector with
        | Some map_link => parse_coordinates_from_url (get_attribute map_link "href")
        | None => Ok None
        end
    | _ => Ok None
    end;
  let '(latitude, longitude) :=
    match coords with
    | Some (lat, lng) => (VFloat lat, VFloat lng)
    | None => (latitude, longitude)
    end in
  let sighting := <["latitude" := latitude]> sighting in
  let sighting := <["longitude" := longitude]> sighting in
  let id_string := common_name ++ location ++ date in
  let sighting := <["id" := VStr (make_id id_string)]> sighting in
  Ok sighting.

(** [extract_sighting_data(card)]: the sighting, or [None] when the body
    raised. *)
Definition extract_sighting_data (card : node) : option (gmap string pyval) :=
  match extract_fields card with
  | Ok sighting => Some sighting
  | Raise _ => None
  end.

(** What the statements about the extractor read off a card. *)

(** What the map link yields: the coordinates read from the first map
    link's [href], if the card has one and the pattern is found. *)
Definition map_link_coordinates (card : node) : res (option (pyfloat * pyfloat)) :=
  match query_selector card map_selector with
  | Some map_link => parse_coordinates_from_url (get_attribute map_link "href")
  | None => Ok None
  end.

(** The dict before the coordinates and the identifier are stored. *)
Definition text_fields (card : node) : gmap string pyval :=
  <["checklist_url" := checklist_url (query_selector card checklist_selector)]>
  (<["rarity_level" :=
       VStr (PyStr.strip (PyStr.lower (text_or (query_selector card rarity_selector) "notable")))]>
  (<["count" := VStr (text_or (query_selector card count_selector) "1")]>
  (<["observer" := VStr (text_or (query_selector card observer_selector) "Unknown")]>
  (<["time" := VStr (text_or (query_selector card time_selector) "")]>
  (<["date" := VStr (PyStr.strip (text_or (query_selector card date_selector) ""))]>
  (<["location" := VStr (text_or (query_selector card location_selector) "Unknown")]>
  (<["species_scientific_name" := VStr (text_or (query_selector card scientific_selector) "")]>
  (<["species_common_name" := VStr (text_or (query_selector card species_selector) "Unknown")]>
     ∅)))))))).

(** The text the identifier is the digest of. *)
Definition id_string (card : node) : string :=
  text_or (query_selector card species_selector) "Unknown"
  ++ text_or (query_selector card location_selector) "Unknown"
  ++ PyStr.strip (text_or (query_selector card date_selector) "").

(** *** [validate_sighting] *)

(** Truth value of [sighting.get(field)]; a missing key gives [None]. *)
Definition truth (v : option pyval) : bool :=
  match v with
  | Some (VStr s) => PyStr.truthy s
  | Some (VFloat x) => PyFloat.nonzero x
  | Some VNone | None => false
  end.

(** [sighting.get(field) != "Unknown"] *)
Definition differs_from_unknown (v : option pyval) : bool :=
  match v with
  | Some (VStr s) => negb (String.eqb s "Unknown")
  | _ => true
  end.

Definition required : list string := ["species_common_name"; "location"; "date"].

Definition validate_sighting (sighting : option (gmap string pyval)) : bool :=
  match sighting with
  | None => false
  | Some d =>
      if bool_decide (d = ∅) then false
      else forallb (fun field => truth (d !! field) && differs_from_unknown (d !! field))
                   required
  end.

(** The words of the validator's contract: a value is non-empty when it
    is a string with at least one character or a number other than zero;
    a field is accepted when it is there, non-empty, and not the sentinel. *)
Definition non_empty (v : pyval) : Prop :=
  match v with
  | VStr s => s <> ""
  | VFloat x => PyFloat.nonzero x = true
  | VNone => False
  end.

Definition field_accepted (d : gmap string pyval) (field : string) : Prop :=
  exists v, d !! field = Some v /\ non_empty v /\ v <> VStr "Unknown".

(** A card as the alert page shows one. *)
Definition el (t cls txt : string) : node :=
  Node t {[ "class" := cls ]} txt [].

Definition sample_card : node :=
  Node "div" {[ "class" := "Observation" ]} ""
    [ Node "h3" ∅ "Snowy Owl" [];
      Node "em" ∅ "Bubo scandiacus" [];
      el "span" "Observation-location" "Central Park";
      el "span" "Observation-meta-date" " Jan 15, 2024 ";
      el "span" "rarity-badge" " Rare ";
      Node "a" {[ "href" := "/checklist/S123" ]} "Checklist" [];
      Node "a" {[ "href" := "https://www.google.com/maps/@40.78,-73.96,15z" ]} "Map" [] ].



Definition map_link_card (data_lat : string) : node :=
  Node "div" {[ "class" := "Observation"; "data-lat" := data_lat ]} ""
    [ Node "h3" ∅ "Snowy Owl" [];
      Node "a" {[ "href" := "https://www.google.com/maps/@40.78,-73.96,15z" ]} "Map" [] ].

(** The keys of a sighting, in the order the extractor stores them. *)
Definition field_names : list string :=
  [ "species_common_name"; "species_scientific_name"; "location"; "date";
    "time"; "observer"; "count"; "rarity_level"; "checklist_url";
    "latitude"; "longitude"; "id" ].

(** The values a dict holds under [field_names]. *)
Definition items (d : gmap string pyval) : list (option pyval) :=
  map (fun k => d !! k) field_names.

(** *** Effects: what a run does, and what the browser answers *)

(** [create_output_json]'s result. *)
Record metadata := Metadata {
  location_code : string;
  location_name : string;
  last_updated : string;
  scrape_status : string;
  total_sightings : nat;
  error_message : option string
}.

Record envelope := Envelope {
  meta : metadata;
  sightings : list (gmap string pyval)
}.

(** What a run does to the outside. *)
Inductive event :=
| Launch                      (* p.chromium.launch(...) is called *)
| Attempt (number : nat)      (* "Navigating to ... (attempt number)" *)
| Goto                        (* page.goto(EBIRD_ALERT_URL) *)
| LoginForm                   (* login(page) *)
| Screenshot                  (* page.screenshot(path="debug_screenshot.png") *)
| Sleep (seconds : nat)       (* asyncio.sleep(seconds) *)
| Opened                      (* open(OUTPUT_FILE, "w") returned: the file is there, empty *)
| Wrote (output : envelope)   (* json.dump and the end of the with block: it holds output *)
| CloseContext                (* context.close() is called *)
| CloseBrowser                (* browser.close() is called *)
| Stop.                       (* the async with block is left *)

(** A computation: the events so far, and a value or a raised exception. *)
Record io (A : Type) := IO { trace : list event; result : res A }.
Arguments IO {A} trace result.
Arguments trace {A} _.
Arguments result {A} _.

Global Instance io_ret : MRet io := fun _ a => IO [] (Ok a).
Global Instance io_bind : MBind io := fun _ _ f m =>
  match result m with
  | Ok a => IO (trace m ++ trace (f a)) (result (f a))
  | Raise e => IO (trace m) (Raise e)
  end.

Definition tell (e : event) : io unit := IO [e] (Ok tt).
Definition lift {A} (r : res A) : io A := IO [] r.
Definition raise {A} (e : string) : io A := IO [] (Raise e).

(** [try: m  except Exception as e: handler e] *)
Definition try_except {A} (m : io A) (handler : string -> io A) : io A :=
  match result m with
  | Ok _ => m
  | Raise e => IO (trace m ++ trace (handler e)) (result (handler e))
  end.

(** [try: m  finally: cleanup], and [async with]: the cleanup runs
    whatever [m] did, and an exception it raises replaces the outcome
    of [m]. *)
Definition try_finally {A} (m : io A) (cleanup : io unit) : io A :=
  IO (trace m ++ trace cleanup)
     match result cleanup with
     | Ok _ => result m
     | Raise e => Raise e
     end.

(** The login page, one outcome per call [login] makes. *)
Record LoginPage := {
  wait_form : res unit;         (* wait_for_selector(<inputs>, timeout=10000) *)
  find_username : res bool;     (* query_selector(<text or email input>) found one *)
  find_password : res bool;     (* query_selector("input[type='password']") found one *)
  fill_username : res unit;
  fill_password : res unit;
  find_submit : res bool;       (* query_selector(<submit control>) found one *)
  click_submit : res unit;
  wait_idle : res unit          (* wait_for_load_state("networkidle", timeout=15000) *)
}.

(** The page during one attempt, one outcome per call the attempt makes. *)
Record PageRun := {
  goto : res unit;              (* the first page.goto *)
  url : string;                 (* page.url after it *)
  login_page : LoginPage;
  goto_again : res unit;        (* page.goto after a login *)
  load_state : res unit;        (* wait_for_load_state("networkidle", timeout=30000) *)
  markers : bool;               (* wait_for_selector(<cards>, timeout=15000) returned *)
  screenshot : res unit;
  cards : res (list node)       (* query_selector_all(<cards>) *)
}.

(** *** [login] *)

Definition login_steps (lp : LoginPage) : res bool :=
  wait_form lp;;
  username_input ← find_username lp;
  password_input ← find_password lp;
  if username_input && password_input return res bool then
    fill_username lp;;
    fill_password lp;;
    submit_button ← find_submit lp;
    if (submit_button : bool) return res bool then
      click_submit lp;;
      wait_idle lp;;
      Ok true
    else Ok false
  else Ok false.

Definition login (lp : LoginPage) : bool :=
  match login_steps lp with
  | Ok b => b
  | Raise _ => false
  end.

(** *** [scrape_alerts] *)

(** The loop over the cards: a sighting is appended when it is there,
    not empty, and valid. *)
Definition visit (acc : list (gmap string pyval)) (card : node)
  : list (gmap string pyval) :=
  match extract_sighting_data card with
  | Some s =>
      if negb (bool_decide (s = ∅)) && validate_sighting (Some s)
      then acc ++ [s] else acc
  | None => acc
  end.

Definition collect (observation_cards : list node) : list (gmap string pyval) :=
  fold_left visit observation_cards [].

Definition redirected_to_login (u : string) : bool :=
  PyStr.contains "login" (PyStr.lower u) || PyStr.contains "signin" (PyStr.lower u).

(** The body of the outer [try], for one attempt. *)
Definition attempt_body (run : PageRun) (attempt : nat)
  : io (list (gmap string pyval)) :=
  tell (Attempt (attempt + 1));;
  tell Goto;;
  lift (goto run);;
  (if redirected_to_login (url run) then
     tell LoginForm;;
     if login (login_page run) then tell Goto;; lift (goto_again run)
     else raise "Login failed"
   else mret tt);;
  lift (load_state run);;
  if markers run then
    observation_cards ← lift (cards run);
    mret (collect observation_cards)
  else
    tell Screenshot;;
    lift (screenshot run);;
    mret [].

(** [for attempt in range(max_retries)], from [attempt] on, with [todo]
    iterations left; falling off the loop returns the empty list. *)
Fixpoint attempts (page : nat -> PageRun) (max_retries attempt todo : nat)
  : io (list (gmap string pyval)) :=
  match todo with
  | O => mret []
  | S todo' =>
      try_except (attempt_body (page attempt) attempt)
        (fun e =>
           if (attempt =? max_retries - 1)%nat then raise e
           else tell (Sleep 5);; attempts page max_retries (S attempt) todo')
  end.

Definition scrape_alerts (page : nat -> PageRun) (max_retries : nat)
  : io (list (gmap string pyval)) :=
  attempts page max_retries 0 max_retries.

(** *** [create_output_json] and [main] *)

Definition create_output_json (now : string) (sightings : list (gmap string pyval))
    (status : string) (error_message : option string) : envelope :=
  Envelope
    (Metadata "SN35466" "eBird Alert Location" now status
              (length sightings) error_message)
    sightings.

(** What [json.dump] writes for a value of a sighting: a string, the
    digits of a finite float, [null], and for a float that is not finite
    one of the words [NaN], [Infinity] and [-Infinity], which are no
    JSON. *)
Inductive json :=
| JString (s : string)
| JNumber (x : pyfloat)
| JNull
| JNaN
| JInfinity (neg : bool).

Definition dump_value (v : pyval) : json :=
  match v with
  | VStr s => JString s
  | VNone => JNull
  | VFloat x =>
      if PyFloat.is_finite x then JNumber x
      else
        match x with
        | NaN => JNaN
        | Inf neg | Dec neg _ _ => JInfinity neg
        end
  end.

(** The surroundings of one run: one outcome per call [main] makes
    outside [scrape_alerts]. *)
Record World := {
  environ : gmap string string;   (* os.environ *)
  start_playwright : res unit;    (* entering async with async_playwright() *)
  launch : res unit;              (* p.chromium.launch(...) *)
  new_context : res unit;         (* browser.new_context(...) *)
  new_page : res unit;            (* context.new_page() *)
  page : nat -> PageRun;          (* the page during attempt 0, 1, 2, ... *)
  now : string;                   (* the clock when the output is built *)
  makedirs_output : res unit;     (* os.makedirs in the try block *)
  open_output : res unit;         (* open(OUTPUT_FILE, "w") in the try block *)
  dump_output : res unit;         (* json.dump and the end of the with block there *)
  now_error : string;             (* the clock when the error state is built *)
  makedirs_error : res unit;      (* os.makedirs in the handler *)
  open_error : res unit;          (* open(OUTPUT_FILE, "w") in the handler *)
  dump_error : res unit;          (* json.dump and the end of the with block there *)
  close_context : res unit;       (* context.close() *)
  close_browser : res unit;       (* browser.close() *)
  stop_playwright : res unit      (* leaving the async with block *)
}.

(** Opening the session: the four calls before the [try] block. *)
Definition session (w : World) : res unit :=
  start_playwright w;; launch w;; new_context w;; new_page w.

(** The three calls that write the output, and those that write the
    error state. *)
Definition write_output (w : World) : res unit :=
  makedirs_output w;; open_output w;; dump_output w.

Definition write_error (w : World) : res unit :=
  makedirs_error w;; open_error w;; dump_error w.

(** The [finally] block. *)
Definition teardown (w : World) : res unit :=
  close_context w;; close_browser w.

(** Truth value of [os.environ.get(name)]. *)
Definition environ_set (w : World) (name : string) : bool :=
  match environ w !! name with
  | Some v => PyStr.truthy v
  | None => false
  end.

(** [os.makedirs(...)], then [with open(OUTPUT_FILE, "w") as f:
    json.dump(output, f, ...)]. *)
Definition save (makedirs open_file dump : res unit) (output : envelope) : io unit :=
  lift makedirs;;
  lift open_file;;
  tell Opened;;
  lift dump;;
  tell (Wrote output).

Definition main (w : World) : io unit :=
  if negb (environ_set w "EBIRD_USERNAME") || negb (environ_set w "EBIRD_PASSWORD")
  then mret tt
  else
    lift (start_playwright w);;
    try_finally
      (tell Launch;;
       lift (launch w);;
       lift (new_context w);;
       lift (new_page w);;
       try_finally
         (try_except
            (sightings ← scrape_alerts (page w) 3;
             let output :=
               match sightings with
               | _ :: _ => create_output_json (now w) sightings "success" None
               | [] => create_output_json (now w) [] "warning" (Some "No sightings found")
               end in
             save (makedirs_output w) (open_output w) (dump_output w) output)
            (fun e =>
               let error_output := create_output_json (now_error w) [] "error" (Some e) in
               save (makedirs_error w) (open_error w) (dump_error w) error_output))
         (tell CloseContext;;
          lift (close_context w);;
          tell CloseBrowser;;
          lift (close_browser w)))
      (tell Stop;;
       lift (stop_playwright w)).

(** The output file.  It does not exist before the run; [open] creates
    or empties it, and it holds an envelope once [json.dump] and the
    [with] block have returned. *)
Inductive file_state :=
| Absent
| Incomplete
| Complete (output : envelope).

Definition file_step (f : file_state) (ev : event) : file_state :=
  match ev with
  | Opened => Incomplete
  | Wrote output => Complete output
  | _ => f
  end.

Definition file_after (evs : list event) : file_state := fold_left file_step evs Absent.

(** The envelope the output file holds after the run, if it holds one. *)
Definition output_file (w : World) : option envelope :=
  match file_after (trace (main w)) with
  | Complete output => Some output
  | _ => None
  end.


(** *** What the statements about a run read off it *)

(** The attempts a run made: its ["Navigating to ... (attempt n)"] lines. *)
Fixpoint count_attempts (evs : list event) : nat :=
  match evs with
  | Attempt _ :: evs' => S (count_attempts evs')
  | _ :: evs' => count_attempts evs'
  | [] => 0
  end.

(** What is done to the output file: opening it, and writing it to the end. *)
Definition touches_file (ev : event) : bool :=
  match ev with
  | Opened | Wrote _ => true
  | _ => false
  end.

(** The attempt made on [run] ends with the exception [e]. *)
Definition fails (run : PageRun) (attempt : nat) (e : string) : Prop :=
  result (attempt_body run attempt) = Raise e.

(** The fields that hold text, and the two that hold a number or [None]. *)
Definition string_fields : list string :=
  [ "species_common_name"; "species_scientific_name"; "location"; "date";
    "time"; "observer"; "count"; "rarity_level"; "checklist_url"; "id" ].

Definition number_fields : list string := [ "latitude"; "longitude" ].

(** A sighting as the data model has it: exactly the twelve fields,
    strings everywhere but in the coordinates, which are numbers or
    [None]. *)
Definition well_formed (s : gmap string pyval) : Prop :=
  dom s = list_to_set field_names /\
  (forall k, In k string_fields -> exists str, s !! k = Some (VStr str)) /\
  (forall k, In k number_fields ->
     s !! k = Some VNone \/ exists x, s !! k = Some (VFloat x)).

(** What an attribute gives as a coordinate: [None] when it is absent
    or empty, and else the number [float] reads in its text. *)
Definition attribute_number (attr : option string) (v : pyval) : Prop :=
  match attr with
  | None => v = VNone
  | Some a =>
      if decide (a = "") then v = VNone
      else exists x, PyFloat.parse a = Some x /\ v = VFloat x
  end.

(** The envelope [main] builds from what the scrape returned. *)
Definition output_of (w : World) (ss : list (gmap string pyval)) : envelope :=
  match ss with
  | _ :: _ => create_output_json (now w) ss "success" None
  | [] => create_output_json (now w) [] "warning" (Some "No sightings found")
  end.

Definition error_output_of (w : World) (e : string) : envelope :=
  create_output_json (now_error w) [] "error" (Some e).

(** What [main] does about the file once [scrape_alerts] is over: the
    writing in the [try] block, and the handler's when the scrape or
    that writing raised. *)
Definition save_result (w : World) : io unit :=
  try_except
    (match result (scrape_alerts (page w) 3) with
     | Ok ss =>
         save (makedirs_output w) (open_output w) (dump_output w) (output_of w ss)
     | Raise e => raise e
     end)
    (fun e =>
       save (makedirs_error w) (open_error w) (dump_error w) (error_output_of w e)).

(** The calls the [finally] block makes. *)
Definition closing (w : World) : list event :=
  CloseContext ::
  match close_context w with
  | Ok _ => [CloseBrowser]
  | Raise _ => []
  end.

(** The [k]-th attempt of a run, counted from zero. *)
Definition nth_attempt (w : World) (k : nat) : io (list (gmap string pyval)) :=
  attempt_body (page w k) k.

(** [os.environ.get(name)] is [None] or the empty string. *)
Definition unset_or_empty (w : World) (name : string) : Prop :=
  environ w !! name = None \/ environ w !! name = Some "".

(** Three cards: two with name, location and date, and between them one
    without a location. *)
Definition named_card (name location date : string) : node :=
  Node "div" {[ "class" := "Observation" ]} ""
    [ Node "h3" ∅ name [];
      el "span" "Observation-location" location;
      el "span" "Observation-meta-date" date ].

Definition card_without_location : node :=
  Node "div" {[ "class" := "Observation" ]} ""
    [ Node "h3" ∅ "Great Horned Owl" [];
      el "span" "Observation-meta-date" "Jan 15, 2024" ].

Definition three_cards : list node :=
  [ named_card "Snowy Owl" "Central Park" "Jan 15, 2024";
    card_without_location;
    named_card "Barn Owl" "Jamaica Bay" "Jan 16, 2024" ].

(** Worlds for the examples.  [quiet_page] shows [card_list] at the first
    attempt; [silent_page] shows no marker at all, and its screenshot
    fails at the first attempt only when [shot] says so. *)
Definition no_login : LoginPage :=
  {| wait_form := Raise "Timeout 10000ms exceeded";
     find_username := Ok false; find_password := Ok false;
     fill_username := Ok tt; fill_password := Ok tt;
     find_submit := Ok false; click_submit := Ok tt; wait_idle := Ok tt |}.

Definition quiet_page (card_list : list node) (attempt : nat) : PageRun :=
  {| goto := Ok tt; url := "https://ebird.org/alert/summary?sid=SN35466";
     login_page := no_login; goto_again := Ok tt; load_state := Ok tt;
     markers := true; screenshot := Ok tt; cards := Ok card_list |}.

Definition silent_page (shot : res unit) (attempt : nat) : PageRun :=
  {| goto := Ok tt; url := "https://ebird.org/alert/summary?sid=SN35466";
     login_page := no_login; goto_again := Ok tt; load_state := Ok tt;
     markers := false;
     screenshot := match attempt with O => shot | _ => Ok tt end;
     cards := Ok [] |}.

Definition down_page (attempt : nat) : PageRun :=
  {| goto := Raise ("net::ERR_CONNECTION_REFUSED, attempt "
                    ++ String (ascii_of_nat (49 + attempt)) "");
     url := "about:blank";
     login_page := no_login; goto_again := Ok tt; load_state := Ok tt;
     markers := false; screenshot := Ok tt; cards := Ok [] |}.

Definition secrets : gmap string string :=
  {[ "EBIRD_USERNAME" := "birder"; "EBIRD_PASSWORD" := "hunter2" ]}.

Definition world_of (env : gmap string string) (launch_outcome : res unit)
    (pages : nat -> PageRun) : World :=
  {| environ := env;
     start_playwright := Ok tt; launch := launch_outcome;
     new_context := Ok tt; new_page := Ok tt;
     page := pages;
     now := "2024-01-15T12:00:00+00:00";
     makedirs_output := Ok tt; open_output := Ok tt; dump_output := Ok tt;
     now_error := "2024-01-15T12:01:00+00:00";
     makedirs_error := Ok tt; open_error := Ok tt; dump_error := Ok tt;
     close_context := Ok tt; close_browser := Ok tt; stop_playwright := Ok tt |}.

Definition down_world : World := world_of secrets (Ok tt) down_page.

Definition failed_screenshot_world : World :=
  world_of secrets (Ok tt) (silent_page (Raise "Timeout 30000ms exceeded")).

Definition silent_world : World := world_of secrets (Ok tt) (silent_page (Ok tt)).

Definition three_cards_world : World :=
  world_of secrets (Ok tt) (quiet_page three_cards).

Definition no_browser_world : World :=
  world_of secrets (Raise "Executable doesn't exist at ms-playwright/chromium")
           (quiet_page three_cards).

Definition no_secrets_world : World :=
  world_of {[ "EBIRD_USERNAME" := "birder"; "EBIRD_PASSWORD" := "" ]} (Ok tt)
           (quiet_page three_cards).

(** A card with the three required fields whose [data-lat] reads as
    not-a-number and whose [data-lng] is beyond the range of a float. *)
Definition nan_card : node :=
  Node "div" {[ "class" := "Observation"; "data-lat" := "nan"; "data-lng" := "1e999" ]} ""
    [ Node "h3" ∅ "Snowy Owl" [];
      el "span" "Observation-location" "Central Park";
      el "span" "Observation-meta-date" "Jan 15, 2024" ].

Definition nan_world : World := world_of secrets (Ok tt) (quiet_page [nan_card]).

(** Cards with coordinates in the attributes and in a map link. *)
Definition both_sources_card : node :=
  Node "div" {[ "data-lat" := "40.5"; "data-lng" := "-73.25" ]} ""
    [ Node "a" {[ "href" := "https://www.google.com/maps/@1.5,2.5,15z" ]} "Map" [] ].

Definition latitude_and_link_card : node :=
  Node "div" {[ "data-lat" := "40.5" ]} ""
    [ Node "a" {[ "href" := "https://www.google.com/maps/@1.5,2.5,15z" ]} "Map" [] ].

Definition longitude_and_link_card : node :=
  Node "div" {[ "data-lng" := "-73.25" ]} ""
    [ Node "a" {[ "href" := "https://www.google.com/maps/@1.5,2.5,15z" ]} "Map" [] ].

(* ===================================================================== *)
(** ** Words for the further statements *)
(* ===================================================================== *)

(** A text the pattern [-?\d+\.\d+] matches: an optional minus sign,
    digits, a point, digits. *)
Definition is_number (g : string) : Prop :=
  exists sign d1 d2,
    g = sign ++ d1 ++ "." ++ d2 /\ (sign = "" \/ sign = "-") /\
    PyStr.all_chars PyStr.is_digit d1 = true /\ d1 <> "" /\
    PyStr.all_chars PyStr.is_digit d2 = true /\ d2 <> "".

(** Two cards whose names and locations differ and whose concatenations
    agree. *)
Definition teal_card_a : node := named_card "Teal" "Bay Park" "Jan 15, 2024".
Definition teal_card_b : node := named_card "TealBay" " Park" "Jan 15, 2024".

(** Cards with a checklist link, relative and absolute. *)
Definition link_card (href : string) : node :=
  Node "div" {[ "class" := "Observation" ]} ""
    [ Node "a" {[ "href" := href ]} "Checklist" [] ].

(** The pauses of a run, in seconds, in the order they were taken. *)
Fixpoint pauses (evs : list event) : list nat :=
  match evs with
  | Sleep n :: evs' => n :: pauses evs'
  | _ :: evs' => pauses evs'
  | [] => []
  end.

Definition is_goto (ev : event) : bool :=
  match ev with
  | Goto => true
  | _ => false
  end.

(** What happens on the page: the attempts, the navigation, the login,
    the screenshot and the pauses. *)
Definition is_page_event (ev : event) : bool :=
  match ev with
  | Attempt _ | Goto | LoginForm | Screenshot | Sleep _ => true
  | _ => false
  end.

(** An attribute that is there, not empty, and that [float] rejects. *)
Definition unreadable_number (attr : option string) : Prop :=
  exists a, attr = Some a /\ a <> "" /\ PyFloat.parse a = None.

(** A login page on which every step goes through. *)
Definition working_login : LoginPage :=
  {| wait_form := Ok tt; find_username := Ok true; find_password := Ok true;
     fill_username := Ok tt; fill_password := Ok tt;
     find_submit := Ok true; click_submit := Ok tt; wait_idle := Ok tt |}.

(** A page behind a login: the first navigation lands on the login page. *)
Definition login_wall (lp : LoginPage) (card_list : list node) (attempt : nat)
  : PageRun :=
  {| goto := Ok tt; url := "https://secure.birds.cornell.edu/cassso/Login?service=x";
     login_page := lp; goto_again := Ok tt; load_state := Ok tt;
     markers := true; screenshot := Ok tt; cards := Ok card_list |}.

(** A page that refuses the first [refusals] attempts and then shows the
    cards. *)
Definition flaky_page (refusals : nat) (card_list : list node) (attempt : nat)
  : PageRun :=
  if (attempt <? refusals)%nat then down_page attempt else quiet_page card_list attempt.

(** A world in which the output file cannot be opened. *)
Definition read_only_world : World :=
  {| environ := secrets;
     start_playwright := Ok tt; launch := Ok tt; new_context := Ok tt; new_page := Ok tt;
     page := quiet_page three_cards;
     now := "2024-01-15T12:00:00+00:00";
     makedirs_output := Ok tt;
     open_output := Raise "[Errno 13] Permission denied";
     dump_output := Ok tt;
     now_error := "2024-01-15T12:01:00+00:00";
     makedirs_error := Ok tt;
     open_error := Raise "[Errno 30] Read-only file system";
     dump_error := Ok tt;
     close_context := Ok tt; close_browser := Ok tt; stop_playwright := Ok tt |}.

(** A world in which the disk fills up while the first envelope is
    written, and the error state cannot be opened afterwards. *)
Definition full_disk_world : World :=
  {| environ := secrets;
     start_playwright := Ok tt; launch := Ok tt; new_context := Ok tt; new_page := Ok tt;
     page := quiet_page three_cards;
     now := "2024-01-15T12:00:00+00:00";
     makedirs_output := Ok tt;
     open_output := Ok tt;
     dump_output := Raise "[Errno 28] No space left on device";
     now_error := "2024-01-15T12:01:00+00:00";
     makedirs_error := Ok tt;
     open_error := Raise "[Errno 28] No space left on device";
     dump_error := Ok tt;
     close_context := Ok tt; close_browser := Ok tt; stop_playwright := Ok tt |}.

(** A world in which closing the context fails after a good run. *)
Definition stuck_context_world : World :=
  {| environ := secrets;
     start_playwright := Ok tt; launch := Ok tt; new_context := Ok tt; new_page := Ok tt;
     page := quiet_page three_cards;
     now := "2024-01-15T12:00:00+00:00";
     makedirs_output := Ok tt; open_output := Ok tt; dump_output := Ok tt;
     now_error := "2024-01-15T12:01:00+00:00";
     makedirs_error := Ok tt; open_error := Ok tt; dump_error := Ok tt;
     close_context := Raise "Target page, context or browser has been closed";
     close_browser := Ok tt; stop_playwright := Ok tt |}.
(* ===================================================================== *)
(** * Properties *)
(* ===================================================================== *)

(** ** The model agrees with the Python builtins on test vectors *)

Example md5_empty : MD5.hexdigest "" = "d41d8cd98f00b204e9800998ecf8427e".
Proof. vm_compute. reflexivity. Qed.

Example md5_abc : MD5.hexdigest "abc" = "900150983cd24fb0d6963f7d28e17f72".
Proof. vm_compute. reflexivity. Qed.

Example md5_two_blocks :
  MD5.hexdigest
    "12345678901234567890123456789012345678901234567890123456789012345678901234567890"
  = "57edf4a22be3c955ac49da2e2107b67a".
Proof. vm_compute. reflexivity. Qed.

Example float_tests :
  PyFloat.parse " 1.5 " = Some (Dec false 15 (-1)) /\
  PyFloat.parse "00012.500" = Some (Dec false 125 (-1)) /\
  PyFloat.parse "-0" = Some (Dec true 0 0) /\
  PyFloat.parse "1_0" = Some (Dec false 1 1) /\
  PyFloat.parse "1.5_5" = Some (Dec false 155 (-2)) /\
  PyFloat.parse "5.e3" = Some (Dec false 5 3) /\
  PyFloat.parse ".5" = Some (Dec false 5 (-1)) /\
  PyFloat.parse "1e-5" = Some (Dec false 1 (-5)) /\
  PyFloat.parse "-Infinity" = Some (Inf true) /\
  PyFloat.parse "+nan" = Some NaN /\
  PyFloat.parse "" = None /\ PyFloat.parse "." = None /\
  PyFloat.parse "1e" = None /\ PyFloat.parse "e5" = None /\
  PyFloat.parse "1__0" = None /\ PyFloat.parse "1_" = None /\
  PyFloat.parse "1._5" = None /\ PyFloat.parse "0x10" = None /\
  PyFloat.parse "N/A" = None /\ PyFloat.parse "1 .5" = None.
Proof. vm_compute. repeat split. Qed.

Example parse_coordinates_examples :
  parse_coordinates_from_url (Some "https://www.google.com/maps/@37.123,-122.456,15z")
    = Ok (Some (Dec false 37123 (-3), Dec true 122456 (-3))) /\
  parse_coordinates_from_url (Some "https://maps.google.com/?q=-1.50,2.25")
    = Ok (Some (Dec true 15 (-1), Dec false 225 (-2))) /\
  parse_coordinates_from_url (Some "https://maps.google.com/?q=37,-122") = Ok None /\
  parse_coordinates_from_url (Some "") = Ok None /\
  parse_coordinates_from_url None = Ok None.
Proof. vm_compute. repeat split. Qed.

Example sample_card_extracted :
  items <$> extract_sighting_data sample_card =
  Some [ Some (VStr "Snowy Owl"); Some (VStr "Bubo scandiacus");
         Some (VStr "Central Park"); Some (VStr "Jan 15, 2024");
         Some (VStr ""); Some (VStr "Unknown"); Some (VStr "1");
         Some (VStr "rare"); Some (VStr "https://ebird.org/checklist/S123");
         Some (VFloat (Dec false 4078 (-2))); Some (VFloat (Dec true 7396 (-2)));
         Some (VStr "92a2e30fd0dc") ] /\
  validate_sighting (extract_sighting_data sample_card) = true.
Proof. vm_compute. split; reflexivity. Qed.

(** ** Queries return the first match in document order *)

Section DomFacts.

Lemma node_forall_ind (P : node -> Prop) :
  (forall t a x ch, Forall P ch -> P (Node t a x ch)) ->
  forall n, P n.
Proof.
  intros step. fix IH 1. intros [t a x ch]. apply step.
  induction ch as [|c ch IHch]; constructor; [apply IH | exact IHch].
Qed.

Lemma subtree_unfold n : subtree n = n :: flat_map subtree (children n).
Proof.
  destruct n as [t a x ch]. reflexivity.
Qed.

Lemma first_match_unfold sel n :
  first_match sel n =
  if matches sel n then Some n else first_among sel (children n).
Proof.
  destruct n as [t a x ch]. simpl. destruct (matches sel _); [reflexivity|].
  induction ch as [|c ch IH]; simpl; [reflexivity|].
  destruct (first_match sel c); [reflexivity | exact IH].
Qed.

Lemma head_filter_app {A} (f : A -> bool) (l1 l2 : list A) :
  head (List.filter f (l1 ++ l2)) =
  match head (List.filter f l1) with
  | Some r => Some r
  | None => head (List.filter f l2)
  end.
Proof.
  induction l1 as [|a l1 IH]; simpl; [reflexivity|].
  destruct (f a); simpl; [reflexivity | exact IH].
Qed.

Lemma first_match_spec sel n :
  first_match sel n = head (List.filter (matches sel) (subtree n)).
Proof.
  induction n as [t a x ch IH] using node_forall_ind.
  rewrite first_match_unfold, subtree_unfold. simpl.
  destruct (matches sel _); simpl; [reflexivity|].
  induction IH as [|c ch Hc _ IHch]; simpl; [reflexivity|].
  rewrite head_filter_app, <- Hc.
  destruct (first_match sel c); [reflexivity | exact IHch].
Qed.

(** [query_selector] gives the first descendant, in document order,
    that matches the group. *)
Lemma query_selector_spec card sel :
  query_selector card sel = head (List.filter (matches sel) (descendants card)).
Proof.
  unfold query_selector, descendants.
  induction (children card) as [|c ch IH]; simpl; [reflexivity|].
  rewrite head_filter_app, <- first_match_spec.
  destruct (first_match sel c); [reflexivity | exact IH].
Qed.

Lemma head_filter_Some {A} (f : A -> bool) l x :
  head (List.filter f l) = Some x -> In x l /\ f x = true.
Proof.
  intros H. apply filter_In.
  destruct (List.filter f l) as [|y l'] eqn:E; simpl in H; [discriminate|].
  injection H as ->. left. reflexivity.
Qed.

Lemma head_filter_None {A} (f : A -> bool) l :
  head (List.filter f l) = None -> forall x, In x l -> f x = false.
Proof.
  intros H x Hx. destruct (f x) eqn:E; [|reflexivity].
  assert (Hin : In x (List.filter f l)) by (apply filter_In; auto).
  destruct (List.filter f l); [destruct Hin | discriminate].
Qed.

Lemma query_selector_Some card sel e :
  query_selector card sel = Some e ->
  In e (descendants card) /\ matches sel e = true.
Proof. rewrite query_selector_spec. apply head_filter_Some. Qed.

Lemma query_selector_None card sel :
  query_selector card sel = None ->
  forall e, In e (descendants card) -> matches sel e = false.
Proof. rewrite query_selector_spec. apply head_filter_None. Qed.

(** An element found through [t[a*='v']] has the attribute [a]. *)
Lemma matches_tag_attr link t a v :
  matches [ByTagAttr t a v] link = true ->
  exists x, get_attribute link a = Some x /\ PyStr.contains v x = true
            /\ PyStr.truthy v = true.
Proof.
  unfold matches. simpl. rewrite orb_false_r.
  intros [_ H]%andb_prop. unfold attr_contains in H.
  destruct (get_attribute link a) as [x|]; [|discriminate].
  apply andb_prop in H as [Hv Hc]. eauto.
Qed.

End DomFacts.

(** ** The extractor *)

Section ExtractFacts.

Lemma res_bind_Ok {A B} (m : res A) (f : A -> res B) b :
  m ≫= f = Ok b -> exists a, m = Ok a /\ f a = Ok b.
Proof. destruct m as [a|e]; simpl; [eauto | discriminate]. Qed.

Lemma extract_fields_Ok card s :
  extract_fields card = Ok s ->
  exists lat0 lng0 coords,
    float_or_none (get_attribute card "data-lat") = Ok lat0 /\
    float_or_none (get_attribute card "data-lng") = Ok lng0 /\
    (if decide (lat0 = VNone) then map_link_coordinates card else Ok None) = Ok coords /\
    s = <["id" := VStr (make_id (id_string card))]>
        (<["longitude" := match coords with Some c => VFloat c.2 | None => lng0 end]>
        (<["latitude" := match coords with Some c => VFloat c.1 | None => lat0 end]>
           (text_fields card))).
Proof.
  unfold extract_fields. intros H.
  apply res_bind_Ok in H as (lat0 & Hlat & H).
  apply res_bind_Ok in H as (lng0 & Hlng & H).
  apply res_bind_Ok in H as (coords & Hc & H).
  exists lat0, lng0, coords. repeat split; try assumption.
  - destruct lat0; simpl; try exact Hc.
  - destruct coords as [[a b]|]; cbv beta iota zeta in H; injection H as <-; reflexivity.
Qed.
End ExtractFacts.

(** ** The identifier *)

Section IdentifierFacts.

Import PyStr.

Lemma hex_digit_is_hex n : (0 <= n < 16)%Z -> is_hex_char (MD5.hex_digit n) = true.
Proof.
  intros Hn.
  assert (Hcases : In n (map Z.of_nat (seq 0 16))).
  { apply in_map_iff. exists (Z.to_nat n). split; [lia | apply in_seq; lia]. }
  simpl in Hcases.
  repeat (destruct Hcases as [<- | Hcases]; [reflexivity|]). destruct Hcases.
Qed.

Lemma hex_shape bs :
  Forall (fun b => (0 <= b < 256)%Z) bs ->
  String.length (MD5.hex bs) = (2 * length bs)%nat /\
  all_chars is_hex_char (MD5.hex bs) = true.
Proof.
  induction 1 as [|b bs Hb _ [IHlen IHhex]]; simpl; [auto|].
  split; [rewrite IHlen; lia|].
  rewrite IHhex, !hex_digit_is_hex; [reflexivity | |].
  - apply Z.mod_pos_bound. lia.
  - split; [apply Z.div_pos; lia | apply Z.div_lt_upper_bound; lia].
Qed.

Lemma bytes_of_word_range w : Forall (fun b => (0 <= b < 256)%Z) (MD5.bytes_of_word w).
Proof.
  unfold MD5.bytes_of_word.
  repeat constructor; apply Z.mod_pos_bound; lia.
Qed.

Lemma hexdigest_shape s :
  String.length (MD5.hexdigest s) = 32 /\
  all_chars is_hex_char (MD5.hexdigest s) = true.
Proof.
  unfold MD5.hexdigest, MD5.digest.
  set (r := MD5.blocks _ _ _).
  destruct (hex_shape (MD5.bytes_of_word (MD5.sa r) ++ MD5.bytes_of_word (MD5.sb r)
              ++ MD5.bytes_of_word (MD5.sc r) ++ MD5.bytes_of_word (MD5.sd r)))
    as [Hlen Hhex].
  { repeat apply Forall_app_2; apply bytes_of_word_range. }
  split; [rewrite Hlen; reflexivity | exact Hhex].
Qed.

Lemma substring_prefix_shape p m s :
  all_chars p s = true -> (m <= String.length s)%nat ->
  String.length (String.substring 0 m s) = m /\
  all_chars p (String.substring 0 m s) = true.
Proof.
  revert m. induction s as [|c s IH]; intros [|m] Hp Hm; simpl in *; auto; [lia|].
  apply andb_prop in Hp as [Hc Hs].
  destruct (IH m Hs) as [Hl Ha]; [lia|].
  rewrite Hl, Hc, Ha. auto.
Qed.

(** The identifier is twelve lower-case hexadecimal digits. *)
Lemma make_id_shape x :
  String.length (make_id x) = 12 /\ all_chars is_hex_char (make_id x) = true.
Proof.
  destruct (hexdigest_shape x) as [Hl Hh].
  apply substring_prefix_shape; [exact Hh | rewrite Hl; lia].
Qed.

End IdentifierFacts.

Section RecordFacts.

Lemma extract_sighting_data_Some card s :
  extract_sighting_data card = Some s -> extract_fields card = Ok s.
Proof.
  unfold extract_sighting_data.
  destruct (extract_fields card); [congruence | discriminate].
Qed.

(** A test that computes: the extractor returned a record. *)
Lemma extracted card :
  match extract_sighting_data card with Some _ => true | None => false end = true ->
  exists s, extract_sighting_data card = Some s.
Proof. destruct (extract_sighting_data card) as [s|]; [eauto | discriminate]. Qed.

Ltac lookup_chain :=
  repeat (rewrite lookup_insert_ne by discriminate);
  first [ apply lookup_insert_eq | rewrite lookup_insert_eq; reflexivity ].

(** The three fields the identifier is derived from, and the identifier. *)
Lemma extract_identifier card s :
  extract_sighting_data card = Some s ->
  s !! "species_common_name"
    = Some (VStr (text_or (query_selector card species_selector) "Unknown")) /\
  s !! "location"
    = Some (VStr (text_or (query_selector card location_selector) "Unknown")) /\
  s !! "date"
    = Some (VStr (PyStr.strip (text_or (query_selector card date_selector) ""))) /\
  s !! "id" = Some (VStr (make_id (id_string card))).
Proof.
  intros H%extract_sighting_data_Some%extract_fields_Ok.
  destruct H as (lat0 & lng0 & coords & _ & _ & _ & ->).
  unfold text_fields. repeat split; lookup_chain.
Qed.


(** The text fields of an extracted record. *)
Lemma extract_text card s :
  extract_sighting_data card = Some s ->
  s !! "species_common_name"
    = Some (VStr (text_or (query_selector card species_selector) "Unknown")) /\
  s !! "species_scientific_name"
    = Some (VStr (text_or (query_selector card scientific_selector) "")) /\
  s !! "location"
    = Some (VStr (text_or (query_selector card location_selector) "Unknown")) /\
  s !! "date"
    = Some (VStr (PyStr.strip (text_or (query_selector card date_selector) ""))) /\
  s !! "time" = Some (VStr (text_or (query_selector card time_selector) "")) /\
  s !! "observer"
    = Some (VStr (text_or (query_selector card observer_selector) "Unknown")) /\
  s !! "count" = Some (VStr (text_or (query_selector card count_selector) "1")) /\
  s !! "rarity_level"
    = Some (VStr (PyStr.strip (PyStr.lower
                    (text_or (query_selector card rarity_selector) "notable")))) /\
  s !! "checklist_url"
    = Some (checklist_url (query_selector card checklist_selector)).
Proof.
  intros H%extract_sighting_data_Some%extract_fields_Ok.
  destruct H as (lat0 & lng0 & coords & _ & _ & _ & ->).
  unfold text_fields. repeat split; lookup_chain.
Qed.

(** The coordinates of an extracted record. *)
Lemma extract_coordinates card s :
  extract_sighting_data card = Some s ->
  exists lat0 lng0 coords,
    float_or_none (get_attribute card "data-lat") = Ok lat0 /\
    float_or_none (get_attribute card "data-lng") = Ok lng0 /\
    (if decide (lat0 = VNone) then map_link_coordinates card else Ok None) = Ok coords /\
    s !! "latitude" = Some (match coords with Some c => VFloat c.1 | None => lat0 end) /\
    s !! "longitude" = Some (match coords with Some c => VFloat c.2 | None => lng0 end).
Proof.
  intros H%extract_sighting_data_Some%extract_fields_Ok.
  destruct H as (lat0 & lng0 & coords & Hlat & Hlng & Hc & ->).
  exists lat0, lng0, coords. repeat split; try assumption; lookup_chain.
Qed.

(** What [float(attr) if attr else None] returns, read off the
    attribute. *)
Lemma float_or_none_Ok attr v :
  float_or_none attr = Ok v -> attribute_number attr v.
Proof.
  unfold float_or_none, float, attribute_number.
  destruct attr as [a|]; [|congruence].
  destruct (decide (a = "")) as [->|Ha]; [cbn; congruence|].
  replace (PyStr.truthy a) with true by (destruct a; [contradiction | reflexivity]).
  destruct (PyFloat.parse a) as [x|]; cbn; [|discriminate].
  intros [= <-]. eauto.
Qed.

End RecordFacts.

(** C1.  The identifier of an extracted record is the first twelve
    characters of the hexadecimal MD5 digest of its common name, its
    location and its date string, in this order and with nothing between
    them; so two extracted records that agree on the three fields have the
    same identifier. *)
Theorem identifier_is_md5_prefix (card : node) (s : gmap string pyval) :
  extract_sighting_data card = Some s ->
  exists name location date,
    s !! "species_common_name" = Some (VStr name) /\
    s !! "location" = Some (VStr location) /\
    s !! "date" = Some (VStr date) /\
    s !! "id" = Some (VStr (String.substring 0 12
                              (MD5.hexdigest (name ++ location ++ date)))) /\
    forall card' s',
      extract_sighting_data card' = Some s' ->
      s' !! "species_common_name" = Some (VStr name) ->
      s' !! "location" = Some (VStr location) ->
      s' !! "date" = Some (VStr date) ->
      s' !! "id" = s !! "id".
Proof.
  intros H. destruct (extract_identifier _ _ H) as (Hn & Hl & Hd & Hid).
  eexists _, _, _. repeat split; try eassumption.
  intros card' s' H' Hn' Hl' Hd'.
  destruct (extract_identifier _ _ H') as (Hn1 & Hl1 & Hd1 & Hid1).
  rewrite Hid, Hid1. unfold id_string. congruence.
Qed.

Lemma identifier_is_md5_prefix_witness :
  exists s,
    extract_sighting_data sample_card = Some s /\
    exists name location date,
      s !! "species_common_name" = Some (VStr name) /\
      s !! "location" = Some (VStr location) /\
      s !! "date" = Some (VStr date) /\
      s !! "id" = Some (VStr (String.substring 0 12
                                (MD5.hexdigest (name ++ location ++ date)))) /\
      forall card' s',
        extract_sighting_data card' = Some s' ->
        s' !! "species_common_name" = Some (VStr name) ->
        s' !! "location" = Some (VStr location) ->
        s' !! "date" = Some (VStr date) ->
        s' !! "id" = s !! "id".
Proof.
  destruct (extracted sample_card) as [s E]; [vm_compute; reflexivity|].
  exists s. split; [exact E|].
  exact (identifier_is_md5_prefix sample_card s E).
Defined.

(** ** The validator *)

Section ValidatorFacts.

Lemma truthy_iff s : PyStr.truthy s = true <-> s <> "".
Proof. destruct s; simpl; split; congruence. Qed.

Lemma field_check_iff (d : gmap string pyval) field :
  truth (d !! field) && differs_from_unknown (d !! field) = true
  <-> field_accepted d field.
Proof.
  unfold field_accepted. rewrite andb_true_iff. split.
  - intros [Ht Hd]. destruct (d !! field) as [[s|x|]|]; simpl in *; try discriminate.
    + exists (VStr s). repeat split; [apply truthy_iff, Ht|].
      intros [= ->]. discriminate.
    + exists (VFloat x). repeat split; [exact Ht | discriminate].
  - intros ([s|x|] & -> & Hne & Hu); simpl in *; try contradiction.
    + split; [apply truthy_iff, Hne|].
      destruct (String.eqb_spec s "Unknown") as [->|]; [contradiction | reflexivity].
    + auto.
Qed.

Lemma validate_sighting_Some (d : gmap string pyval) :
  validate_sighting (Some d) = true <->
  field_accepted d "species_common_name" /\
  field_accepted d "location" /\
  field_accepted d "date".
Proof.
  unfold validate_sighting, required. case_bool_decide as Hd.
  - subst d. split; [discriminate|].
    intros [(v & Hv & _) _]. rewrite lookup_empty in Hv. discriminate.
  - cbn [forallb]. split.
    + intros H. apply andb_prop in H as [H1 H]. apply andb_prop in H as [H2 H].
      apply andb_prop in H as [H3 _]. rewrite <- !field_check_iff. auto.
    + intros (H1 & H2 & H3). apply field_check_iff in H1, H2, H3.
      rewrite H1, H2, H3. reflexivity.
Qed.

End ValidatorFacts.

(** C2.  The validator accepts a candidate exactly when the candidate is
    there and each of common name, location and date is there, non-empty,
    and not the sentinel ["Unknown"]; two candidates that agree on these
    three fields get the same decision, whatever else they hold. *)
Theorem validate_sighting_decision :
  (forall candidate : option (gmap string pyval),
     validate_sighting candidate = true <->
     exists d, candidate = Some d /\
               field_accepted d "species_common_name" /\
               field_accepted d "location" /\
               field_accepted d "date") /\
  (forall d d' : gmap string pyval,
     d !! "species_common_name" = d' !! "species_common_name" ->
     d !! "location" = d' !! "location" ->
     d !! "date" = d' !! "date" ->
     validate_sighting (Some d) = validate_sighting (Some d')).
Proof.
  split.
  - intros [d|].
    + rewrite validate_sighting_Some. split; [eauto|].
      intros (d0 & [= <-] & H). exact H.
    + split; [discriminate | intros (d0 & [=] & _)].
  - intros d d' Hn Hl Hd.
    apply eq_true_iff_eq. rewrite !validate_sighting_Some.
    unfold field_accepted. rewrite Hn, Hl, Hd. reflexivity.
Qed.

Lemma validate_sighting_decision_witness :
  validate_sighting
    (Some (<["observer" := VNone]>
             {[ "species_common_name" := VStr "Snowy Owl";
                "location" := VStr "Central Park";
                "date" := VStr "Jan 15, 2024" ]}))
  = validate_sighting
      (Some {[ "species_common_name" := VStr "Snowy Owl";
               "location" := VStr "Central Park";
               "date" := VStr "Jan 15, 2024" ]}).
Proof.
  apply (proj2 validate_sighting_decision); vm_compute; reflexivity.
Defined.

(** The validator on strings: accepted means neither empty nor the
    sentinel; a missing field and the absent candidate are rejected. *)
Example validate_sighting_examples :
  let record name location date : gmap string pyval :=
    {[ "species_common_name" := VStr name; "location" := VStr location;
       "date" := VStr date ]} in
  validate_sighting (Some (record "Snowy Owl" "Central Park" "Jan 15")) = true /\
  validate_sighting (Some (record "Unknown" "Central Park" "Jan 15")) = false /\
  validate_sighting (Some (record "Snowy Owl" "Unknown" "Jan 15")) = false /\
  validate_sighting (Some (record "Snowy Owl" "Central Park" "")) = false /\
  validate_sighting (Some {[ "species_common_name" := VStr "Snowy Owl" ]}) = false /\
  validate_sighting (Some ∅) = false /\
  validate_sighting None = false.
Proof. vm_compute. repeat split. Qed.

(** ** Text fields and their defaults *)




(** The rarity badge of [sample_card] reads [" Rare "]; the record holds
    ["rare"]. *)
Example rarity_is_lowered_and_trimmed :
  inner_text <$> query_selector sample_card rarity_selector = Some " Rare " /\
  extract_sighting_data sample_card ≫= (fun s => s !! "rarity_level")
    = Some (VStr "rare").
Proof. vm_compute. repeat split. Qed.

(** ** Coordinates *)

(** C5, as the code has it.  In a record the extractor returns, the
    [data-lat] attribute alone settles where both coordinates come from.
    When it is there and not empty, the latitude is the number in its
    text and the longitude is the number in [data-lng], or [None] when
    [data-lng] is absent or empty; the map link plays no part.  When
    [data-lat] is absent or empty and the pattern is found in the map
    link, both coordinates are the map link's, whatever [data-lng] holds.
    When [data-lat] is absent or empty and the map link gives nothing,
    the latitude is [None] and the longitude is what [data-lng] gives:
    both are [None], not zero, when [data-lng] gives nothing either. *)
Theorem coordinates_by_priority (card : node) (s : gmap string pyval) :
  extract_sighting_data card = Some s ->
  exists lat lng,
    s !! "latitude" = Some lat /\ s !! "longitude" = Some lng /\
    (forall a,
       get_attribute card "data-lat" = Some a -> a <> "" ->
       (exists x, PyFloat.parse a = Some x /\ lat = VFloat x) /\
       attribute_number (get_attribute card "data-lng") lng) /\
    (get_attribute card "data-lat" = None \/ get_attribute card "data-lat" = Some "" ->
       (forall la lo,
          map_link_coordinates card = Ok (Some (la, lo)) ->
          lat = VFloat la /\ lng = VFloat lo) /\
       (map_link_coordinates card = Ok None ->
          lat = VNone /\ attribute_number (get_attribute card "data-lng") lng) /\
       (map_link_coordinates card = Ok None ->
          get_attribute card "data-lng" = None \/ get_attribute card "data-lng" = Some "" ->
          lat = VNone /\ lng = VNone)).
Proof.
  intros H.
  destruct (extract_coordinates card s H)
    as (lat0 & lng0 & coords & Hlat & Hlng & Hc & Hla & Hlo).
  apply float_or_none_Ok in Hlat, Hlng.
  eexists _, _. split; [exact Hla|]. split; [exact Hlo|]. split.
  - intros a Ha Hne. rewrite Ha in Hlat. unfold attribute_number in Hlat.
    rewrite decide_False in Hlat by assumption. destruct Hlat as (x & Hx & ->).
    rewrite decide_False in Hc by discriminate. injection Hc as <-.
    split; [eauto | exact Hlng].
  - intros Ha.
    assert (lat0 = VNone) as ->.
    { destruct Ha as [Ha|Ha]; rewrite Ha in Hlat; exact Hlat. }
    rewrite decide_True in Hc by reflexivity.
    split; [|split].
    + intros la lo Hm. rewrite Hm in Hc. injection Hc as <-. auto.
    + intros Hm. rewrite Hm in Hc. injection Hc as <-. auto.
    + intros Hm Hg. rewrite Hm in Hc. injection Hc as <-. split; [reflexivity|].
      destruct Hg as [Hg|Hg]; rewrite Hg in Hlng; exact Hlng.
Qed.

(** With both attributes and a map link, the attributes are read; with
    an empty [data-lat], the map link is. *)
Lemma coordinates_by_priority_witness :
  (exists s,
     extract_sighting_data both_sources_card = Some s /\
     s !! "latitude" = Some (VFloat (Dec false 405 (-1))) /\
     s !! "longitude" = Some (VFloat (Dec true 7325 (-2)))) /\
  (exists s,
     extract_sighting_data (map_link_card "") = Some s /\
     s !! "latitude" = Some (VFloat (Dec false 4078 (-2))) /\
     s !! "longitude" = Some (VFloat (Dec true 7396 (-2)))).
Proof.
  split.
  - destruct (extracted both_sources_card) as [s E]; [vm_compute; reflexivity|].
    exists s. split; [exact E|].
    destruct (coordinates_by_priority both_sources_card s E)
      as (lat & lng & Hla & Hlo & Hattr & _).
    destruct (Hattr "40.5") as ((x & Hx & ->) & Hlng);
      [vm_compute; reflexivity | discriminate|].
    vm_compute in Hx. injection Hx as <-.
    replace (get_attribute both_sources_card "data-lng") with (Some "-73.25") in Hlng
      by (vm_compute; reflexivity).
    unfold attribute_number in Hlng. rewrite decide_False in Hlng by discriminate.
    destruct Hlng as (y & Hy & ->). vm_compute in Hy. injection Hy as <-.
    split; [exact Hla | exact Hlo].
  - destruct (extracted (map_link_card "")) as [s E]; [vm_compute; reflexivity|].
    exists s. split; [exact E|].
    destruct (coordinates_by_priority (map_link_card "") s E)
      as (lat & lng & Hla & Hlo & _ & Hlink).
    destruct Hlink as (Hmap & _); [right; vm_compute; reflexivity|].
    destruct (Hmap (Dec false 4078 (-2)) (Dec true 7396 (-2))) as [-> ->];
      [vm_compute; reflexivity|].
    split; [exact Hla | exact Hlo].
Defined.

(** C5 as stated fails.  The longitude is not resolved on its own.
    With [data-lat] alone and a map link that holds both coordinates,
    the longitude stays [None]: the map link is not read.  With
    [data-lng] alone and the same map link, the longitude of the
    attribute is replaced by the map link's. *)
Lemma longitude_follows_the_latitude :
  get_attribute latitude_and_link_card "data-lng" = None /\
  map_link_coordinates latitude_and_link_card
    = Ok (Some (Dec false 15 (-1), Dec false 25 (-1))) /\
  extract_sighting_data latitude_and_link_card ≫= (fun s => s !! "latitude")
    = Some (VFloat (Dec false 405 (-1))) /\
  extract_sighting_data latitude_and_link_card ≫= (fun s => s !! "longitude")
    = Some VNone /\
  get_attribute longitude_and_link_card "data-lng" = Some "-73.25" /\
  map_link_coordinates longitude_and_link_card
    = Ok (Some (Dec false 15 (-1), Dec false 25 (-1))) /\
  extract_sighting_data longitude_and_link_card ≫= (fun s => s !! "latitude")
    = Some (VFloat (Dec false 15 (-1))) /\
  extract_sighting_data longitude_and_link_card ≫= (fun s => s !! "longitude")
    = Some (VFloat (Dec false 25 (-1))).
Proof. vm_compute. repeat split. Qed.

(** A card with [data-lat] and [data-lng] keeps them, map link or not. *)
Example direct_attributes_win :
  let card :=
    Node "div" {[ "data-lat" := "40.5"; "data-lng" := "-73.25" ]} ""
      [ Node "a" {[ "href" := "https://www.google.com/maps/@1.5,2.5,15z" ]} "Map" [] ] in
  extract_sighting_data card ≫= (fun s => s !! "latitude")
    = Some (VFloat (Dec false 405 (-1))) /\
  extract_sighting_data card ≫= (fun s => s !! "longitude")
    = Some (VFloat (Dec true 7325 (-2))).
Proof. vm_compute. split; reflexivity. Qed.

(** Only the latitude settles whether the map link is read: with
    [data-lng] alone and no map link the latitude stays [None] next to a
    longitude. *)
Example longitude_without_latitude :
  let card := Node "div" {[ "data-lng" := "-73.25" ]} "" [] in
  extract_sighting_data card ≫= (fun s => s !! "latitude") = Some VNone /\
  extract_sighting_data card ≫= (fun s => s !! "longitude")
    = Some (VFloat (Dec true 7325 (-2))).
Proof. vm_compute. split; reflexivity. Qed.




(** ** The coordinate parser *)

Section ParserFacts.
Import PyStr.

(** Facts on single characters, by running through the 256 of them. *)
Ltac by_cases_on c :=
  destruct c as [[] [] [] [] [] [] [] []]; vm_compute; intros;
  try discriminate; repeat split.

Lemma digit_facts c :
  is_digit c = true ->
  PyFloat.is_c_space c = false /\ Ascii.eqb c "_" = false /\
  lower_char c = c /\ Ascii.eqb c "-" = false /\ Ascii.eqb c "+" = false /\
  Ascii.eqb c "." = false /\ Ascii.eqb c "i" = false /\ Ascii.eqb c "n" = false.
Proof. by_cases_on c. Qed.

Lemma number_char_facts c :
  Re.number_char c = true ->
  PyFloat.is_c_space c = false /\ Ascii.eqb c "_" = false.
Proof. by_cases_on c. Qed.

Lemma append_assoc (s1 s2 s3 : string) : (s1 ++ s2) ++ s3 = s1 ++ (s2 ++ s3).
Proof.
  induction s1 as [|c s1 IH]; [reflexivity|].
  change (String c ((s1 ++ s2) ++ s3) = String c (s1 ++ (s2 ++ s3))).
  now rewrite IH.
Qed.

Lemma append_empty_r (s : string) : s ++ "" = s.
Proof.
  induction s as [|c s IH]; [reflexivity|].
  change (String c (s ++ "") = String c s). now rewrite IH.
Qed.

Lemma all_chars_app p s1 s2 :
  all_chars p (s1 ++ s2) = all_chars p s1 && all_chars p s2.
Proof.
  induction s1 as [|c s1 IH]; simpl; [reflexivity|].
  rewrite IH. apply andb_assoc.
Qed.

Lemma span_digits_spec s ds rest :
  span_digits s = (ds, rest) ->
  s = ds ++ rest /\ all_chars is_digit ds = true.
Proof.
  revert ds rest. induction s as [|c s IH]; simpl; intros ds rest H.
  - injection H as <- <-. auto.
  - destruct (is_digit c) eqn:Hc.
    + destruct (span_digits s) as [ds' rest'] eqn:E. injection H as <- <-.
      destruct (IH _ _ eq_refl) as [-> Hd]. simpl. rewrite Hc, Hd. auto.
    + injection H as <- <-. auto.
Qed.

Lemma span_digits_app ds rest :
  all_chars is_digit ds = true ->
  match rest with String c _ => is_digit c = false | EmptyString => True end ->
  span_digits (ds ++ rest) = (ds, rest).
Proof.
  intros Hd Hr. induction ds as [|c ds IH]; simpl in *.
  - destruct rest as [|c r]; simpl; [reflexivity | now rewrite Hr].
  - apply andb_prop in Hd as [Hc Hd]. rewrite Hc, (IH Hd). reflexivity.
Qed.

(** What [number] matches: an optional minus sign, digits, a point,
    digits. *)
Lemma number_spec s g rest :
  Re.number s = Some (g, rest) ->
  exists sign d1 d2,
    g = sign ++ d1 ++ "." ++ d2 /\ s = g ++ rest /\
    (sign = "" \/ sign = "-") /\
    all_chars is_digit d1 = true /\ truthy d1 = true /\
    all_chars is_digit d2 = true /\ truthy d2 = true.
Proof.
  unfold Re.number. intros H.
  set (p := match s with String "-" s' => ("-", s') | _ => ("", s) end) in H.
  assert (Hp : s = p.1 ++ p.2 /\ (p.1 = "" \/ p.1 = "-")).
  { subst p. destruct s as [|c s']; [auto|].
    destruct (Ascii.eqb_spec c "-") as [->|Hne]; [auto|].
    destruct c as [[] [] [] [] [] [] [] []]; simpl; auto; contradiction. }
  destruct p as [sign s1]. simpl in Hp. destruct Hp as [Hs Hsign].
  destruct (span_digits s1) as [d1 s2] eqn:E1.
  destruct (truthy d1) eqn:T1; [|discriminate].
  destruct s2 as [|c s3]; [discriminate|].
  destruct (Ascii.eqb_spec c ".") as [->|Hne];
    [|destruct c as [[] [] [] [] [] [] [] []]; try discriminate; contradiction].
  destruct (span_digits s3) as [d2 s4] eqn:E2.
  destruct (truthy d2) eqn:T2; [|discriminate].
  injection H as <- <-.
  apply span_digits_spec in E1 as [-> Hd1]. apply span_digits_spec in E2 as [-> Hd2].
  exists sign, d1, d2. repeat split; try assumption.
  subst s. rewrite !append_assoc. reflexivity.
Qed.

Lemma skip_number_chars s :
  all_chars Re.number_char s = true ->
  PyFloat.lskip s = s /\ PyFloat.rskip s = s.
Proof.
  intros H. split.
  - destruct s as [|c s]; [reflexivity|]. simpl in *.
    apply andb_prop in H as [Hc _].
    destruct (number_char_facts c Hc) as [-> _]. reflexivity.
  - induction s as [|c s IH]; [reflexivity|]. simpl in *.
    apply andb_prop in H as [Hc Hs]. rewrite (IH Hs).
    destruct (number_char_facts c Hc) as [-> _]. destruct s; reflexivity.
Qed.

Lemma drop_underscores_number_chars prev s :
  Ascii.eqb prev "_" = false ->
  all_chars Re.number_char s = true ->
  PyFloat.drop_underscores prev s = Some s.
Proof.
  revert prev. induction s as [|c s IH]; intros prev Hp H; simpl in *.
  - now rewrite Hp.
  - apply andb_prop in H as [Hc Hs].
    destruct (number_char_facts c Hc) as [_ Hu]. rewrite Hu, Hp. simpl.
    now rewrite (IH c Hu Hs).
Qed.

Lemma digits_are_number_chars ds :
  all_chars is_digit ds = true -> all_chars Re.number_char ds = true.
Proof.
  induction ds as [|c ds IH]; simpl; [reflexivity|].
  intros [Hc Hd]%andb_prop. unfold Re.number_char at 1. rewrite Hc, (IH Hd). reflexivity.
Qed.

Lemma lower_digits ds : all_chars is_digit ds = true -> lower ds = ds.
Proof.
  induction ds as [|c ds IH]; simpl; [reflexivity|].
  intros [Hc Hd]%andb_prop. rewrite (IH Hd).
  destruct (digit_facts c Hc) as (_ & _ & -> & _). reflexivity.
Qed.

(** [float] reads every match of [-?\d+\.\d+]: digits, a point, digits
    are a decimal, with or without the minus sign. *)
Lemma parse_digits_point_digits neg d1 d2 :
  all_chars is_digit d1 = true -> truthy d1 = true ->
  all_chars is_digit d2 = true -> truthy d2 = true ->
  PyFloat.parse ((if neg : bool then "-" else "") ++ d1 ++ "." ++ d2)
  = Some (PyFloat.make_dec neg (d1 ++ d2) (- Z.of_nat (String.length d2))).
Proof.
  intros H1 T1 H2 T2.
  set (t := d1 ++ "." ++ d2).
  assert (Ht : all_chars Re.number_char t = true).
  { subst t. rewrite !all_chars_app, (digits_are_number_chars d1 H1),
      (digits_are_number_chars d2 H2). reflexivity. }
  assert (Hg : all_chars Re.number_char ((if neg then "-" else "") ++ t) = true).
  { rewrite all_chars_app, Ht. destruct neg; reflexivity. }
  unfold PyFloat.parse.
  destruct (skip_number_chars _ Hg) as [-> ->].
  rewrite drop_underscores_number_chars by (reflexivity || assumption).
  cbn [mbind option_bind].
  destruct d1 as [|c d1]; [discriminate|]. simpl in H1.
  apply andb_prop in H1 as [Hc H1].
  destruct (digit_facts c Hc) as (_ & _ & Hl & Hm & Hp & Hd & Hi & Hn).
  assert (Hsplit : PyFloat.split_sign ((if neg then "-" else "") ++ t) = (neg, t)).
  { destruct neg; [reflexivity|]. subst t.
    change ("" ++ String c d1 ++ "." ++ d2) with (String c (d1 ++ "." ++ d2)).
    unfold PyFloat.split_sign.
    destruct c as [[] [] [] [] [] [] [] []]; try reflexivity; discriminate. }
  rewrite Hsplit.
  assert (Hw : exists w, lower t = String c w).
  { subst t. exists (lower (d1 ++ "." ++ d2)).
    change (String c d1 ++ "." ++ d2) with (String c (d1 ++ "." ++ d2)).
    simpl. now rewrite Hl. }
  destruct Hw as [w ->].
  replace (String.eqb (String c w) "inf") with false
    by (simpl; now rewrite Hi).
  replace (String.eqb (String c w) "infinity") with false
    by (simpl; now rewrite Hi).
  replace (String.eqb (String c w) "nan") with false
    by (simpl; now rewrite Hn).
  cbn [orb]. unfold PyFloat.decimal. subst t.
  rewrite (span_digits_app (String c d1) ("." ++ d2)); cycle 1.
  { simpl. now rewrite Hc, H1. }
  { reflexivity. }
  change ("." ++ d2) with (String "." d2).
  rewrite <- (append_empty_r d2) at 1.
  rewrite (span_digits_app d2 "") by (assumption || exact I).
  change (truthy (String c d1 ++ d2)) with true.
  cbn [PyFloat.exponent mbind option_bind]. reflexivity.
Qed.

Lemma float_of_number s g rest :
  Re.number s = Some (g, rest) -> exists x, float g = Ok x.
Proof.
  intros (sign & d1 & d2 & -> & _ & Hsign & H1 & T1 & H2 & T2)%number_spec.
  unfold float.
  destruct Hsign as [-> | ->].
  - rewrite (parse_digits_point_digits false) by assumption. eauto.
  - rewrite (parse_digits_point_digits true) by assumption. eauto.
Qed.

(** The parser never raises. *)
Lemma parse_coordinates_total url :
  exists r, parse_coordinates_from_url url = Ok r.
Proof.
  destruct url as [u|]; simpl; [|eauto].
  destruct (truthy u); simpl; [|eauto].
  destruct (Re.search u) as [[g1 g2]|] eqn:E; [|eauto].
  assert (Hm : exists s, Re.match_here s = Some (g1, g2)).
  { clear -E. induction u as [|c u IH].
    - simpl in E. discriminate.
    - cbn [Re.search] in E. destruct (Re.match_here (String c u)) eqn:M.
      + injection E as ->. eauto.
      + auto. }
  destruct Hm as [s Hm]. unfold Re.match_here in Hm.
  destruct s as [|c s1]; [discriminate|].
  destruct (Re.in_class c); [|discriminate]. unfold Re.two_numbers in Hm.
  destruct (Re.number s1) as [[g1' r1]|] eqn:N1; [|discriminate].
  destruct r1 as [|c1 s2]; [discriminate|].
  destruct (Ascii.eqb_spec c1 ",") as [->|Hne];
    [|destruct c1 as [[] [] [] [] [] [] [] []]; try discriminate; contradiction].
  destruct (Re.number s2) as [[g2' r2]|] eqn:N2; [|discriminate].
  injection Hm as -> ->.
  destruct (float_of_number _ _ _ N1) as [x1 ->].
  destruct (float_of_number _ _ _ N2) as [x2 ->].
  simpl. eauto.
Qed.

Lemma search_of_match_here s g : Re.match_here s = Some g -> Re.search s = Some g.
Proof. intros H. destruct s; cbn [Re.search]; now rewrite H. Qed.

Lemma search_after c u :
  (exists g, Re.search u = Some g) -> exists g, Re.search (String c u) = Some g.
Proof.
  intros [g Hg]. cbn [Re.search].
  destruct (Re.match_here (String c u)); eauto.
Qed.

(** Where the documented pattern finds a pair, the parser finds one too:
    the class admits more introducers, not fewer. *)
Lemma documented_search_is_covered u g :
  Re.documented_search u = Some g -> exists g', Re.search u = Some g'.
Proof.
  induction u as [|c u IH]; [discriminate|].
  cbn [Re.documented_search].
  destruct (Re.documented_match_here (String c u)) as [g0|] eqn:D.
  - intros _. unfold Re.documented_match_here in D.
    destruct (Ascii.eqb_spec c "@") as [->|Hat].
    { exists g0. apply search_of_match_here. exact D. }
    destruct (Ascii.eqb_spec c "q") as [->|Hq].
    + destruct u as [|c1 s1]; [discriminate|].
      destruct (Ascii.eqb_spec c1 "=") as [->|Heq].
      * apply search_after. exists g0. apply search_of_match_here. exact D.
      * destruct c1 as [[] [] [] [] [] [] [] []]; try discriminate; contradiction.
    + destruct c as [[] [] [] [] [] [] [] []]; try discriminate; contradiction.
  - intros H. apply search_after, IH, H.
Qed.

End ParserFacts.

(** C3, where the code leaves it.  The class [[@q=]] is one character out
    of three, not ["@"] or ["q="]: a URL whose coordinates follow
    ["ll="] has no match of the documented pattern, and the parser
    returns a pair for it; and where both patterns match, the parser may
    take an earlier pair than the documented pattern does. *)
Theorem class_admits_a_lone_equals_sign :
  Re.documented_search "https://maps.google.com/maps?ll=37.123,-122.456" = None /\
  parse_coordinates_from_url (Some "https://maps.google.com/maps?ll=37.123,-122.456")
    = Ok (Some (Dec false 37123 (-3), Dec true 122456 (-3))) /\
  Re.documented_search "https://maps.google.com/maps?ll=1.5,2.5&q=3.5,4.5"
    = Some ("3.5", "4.5") /\
  parse_coordinates_from_url (Some "https://maps.google.com/maps?ll=1.5,2.5&q=3.5,4.5")
    = Ok (Some (Dec false 15 (-1), Dec false 25 (-1))).
Proof. vm_compute. repeat split. Qed.

(** ** The retry loop *)

Section RunFacts.

Lemma io_bind_trace {A B} (m : io A) (f : A -> io B) :
  trace (m ≫= f) =
  (trace m ++ match result m with Ok a => trace (f a) | Raise _ => [] end)%list.
Proof. unfold mbind, io_bind. destruct (result m); simpl; [reflexivity | now rewrite app_nil_r]. Qed.

Lemma io_bind_result {A B} (m : io A) (f : A -> io B) :
  result (m ≫= f) = match result m with Ok a => result (f a) | Raise e => Raise e end.
Proof. unfold mbind, io_bind. destruct (result m); reflexivity. Qed.

Lemma count_attempts_app l1 l2 :
  count_attempts (l1 ++ l2) = count_attempts l1 + count_attempts l2.
Proof.
  induction l1 as [|[] l1 IH]; simpl; rewrite ?IH; reflexivity.
Qed.

Ltac every_outcome run :=
  unfold attempt_body;
  destruct (goto run) as [[]|]; destruct (redirected_to_login (url run));
  destruct (login (login_page run)); destruct (goto_again run) as [[]|];
  destruct (load_state run) as [[]|]; destruct (markers run);
  destruct (cards run); destruct (screenshot run) as [[]|].

(** One attempt logs one attempt line and writes nothing. *)
Lemma attempt_body_events run a :
  count_attempts (trace (attempt_body run a)) = 1 /\
  existsb touches_file (trace (attempt_body run a)) = false.
Proof. every_outcome run; split; reflexivity. Qed.

(** What an attempt returns: nothing, or what the cards give. *)
Lemma attempt_body_result run a ss :
  result (attempt_body run a) = Ok ss ->
  (markers run = false /\ screenshot run = Ok tt /\ ss = []) \/
  (markers run = true /\ exists cs, cards run = Ok cs /\ ss = collect cs).
Proof. every_outcome run; simpl; intros [= <-]; eauto. Qed.

Lemma attempts_returns page m a todo ss :
  result (attempt_body (page a) a) = Ok ss ->
  attempts page m a (S todo) = attempt_body (page a) a.
Proof. intros H. simpl. unfold try_except. now rewrite H. Qed.

Lemma attempts_gives_up page m a todo e :
  fails (page a) a e -> a = m - 1 ->
  attempts page m a (S todo) = IO (trace (attempt_body (page a) a)) (Raise e).
Proof.
  intros H ->. simpl. unfold try_except. rewrite H, Nat.eqb_refl. simpl.
  now rewrite app_nil_r.
Qed.

Lemma attempts_retries page m a todo e :
  fails (page a) a e -> a <> m - 1 ->
  attempts page m a (S todo) =
  IO (trace (attempt_body (page a) a) ++ Sleep 5 :: trace (attempts page m (S a) todo))
     (result (attempts page m (S a) todo)).
Proof.
  intros H Hne. simpl. unfold try_except. rewrite H.
  apply Nat.eqb_neq in Hne. rewrite Hne. reflexivity.
Qed.

Lemma attempts_cases page m a todo :
  (exists ss, result (attempt_body (page a) a) = Ok ss /\
              attempts page m a (S todo) = attempt_body (page a) a) \/
  (exists e, fails (page a) a e /\
             attempts page m a (S todo) = IO (trace (attempt_body (page a) a)) (Raise e)) \/
  (exists e, fails (page a) a e /\
             attempts page m a (S todo) =
             IO (trace (attempt_body (page a) a) ++ Sleep 5 :: trace (attempts page m (S a) todo))
                (result (attempts page m (S a) todo))).
Proof.
  destruct (result (attempt_body (page a) a)) as [ss|e] eqn:E.
  - left. eauto using attempts_returns.
  - right. destruct (Nat.eq_dec a (m - 1)).
    + left. eauto using attempts_gives_up.
    + right. eauto using attempts_retries.
Qed.

(** The loop makes at most as many attempts as it has iterations, and
    writes nothing. *)
Lemma attempts_events page m a todo :
  count_attempts (trace (attempts page m a todo)) <= todo /\
  existsb touches_file (trace (attempts page m a todo)) = false.
Proof.
  revert a. induction todo as [|todo IH]; intros a; [simpl; auto|].
  destruct (attempt_body_events (page a) a) as [Hc Hw].
  destruct (IH (S a)) as [IHc IHw].
  destruct (attempts_cases page m a todo)
    as [(ss & _ & ->) | [(e & _ & ->) | (e & _ & ->)]]; cbn [trace].
  - rewrite Hc, Hw. split; [lia | reflexivity].
  - rewrite Hc, Hw. split; [lia | reflexivity].
  - rewrite count_attempts_app, existsb_app, Hc, Hw. simpl. split; [lia | exact IHw].
Qed.

(** What the loop returns comes from one attempt. *)
Lemma attempts_result page m a todo ss :
  result (attempts page m a todo) = Ok ss ->
  ss = [] \/ exists k cs, cards (page k) = Ok cs /\ ss = collect cs.
Proof.
  revert a. induction todo as [|todo IH]; intros a H.
  - injection H as <-. auto.
  - destruct (attempts_cases page m a todo)
      as [(ss' & Hb & Heq) | [(e & _ & Heq) | (e & _ & Heq)]];
      rewrite Heq in H; cbn [result] in H.
    + apply attempt_body_result in H as [(_ & _ & ->) | (_ & cs & Hcs & ->)]; eauto.
    + discriminate.
    + eauto.
Qed.

(** What the loop returns is what its first attempt that does not
    raise returns. *)
Lemma attempts_first_return page m a todo ss :
  a + todo = m ->
  result (attempts page m a todo) = Ok ss ->
  todo = 0 \/
  exists k,
    a <= k < m /\
    result (attempt_body (page k) k) = Ok ss /\
    (forall j, a <= j < k -> exists e, fails (page j) j e).
Proof.
  revert a. induction todo as [|todo IH]; intros a Hm H; [auto|]. right.
  destruct (result (attempt_body (page a) a)) as [ss0|e0] eqn:E.
  - rewrite (attempts_returns _ _ _ _ _ E), E in H. injection H as ->.
    exists a. split; [lia|]. split; [exact E|]. intros j Hj. lia.
  - destruct (Nat.eq_dec a (m - 1)) as [Ha|Ha].
    { rewrite (attempts_gives_up _ _ _ _ _ E Ha) in H. discriminate. }
    rewrite (attempts_retries _ _ _ _ _ E Ha) in H. cbn [result] in H.
    destruct (IH (S a)) as [-> | (k & Hk & Hr & Hall)]; [lia | exact H | lia |].
    exists k. split; [lia|]. split; [exact Hr|].
    intros j Hj. destruct (Nat.eq_dec j a) as [->|]; [eauto|]. apply Hall. lia.
Qed.

(** The loop over the cards keeps the valid records, in order. *)
Lemma collect_is_filter cs :
  collect cs =
  List.filter (fun s => validate_sighting (Some s)) (omap extract_sighting_data cs).
Proof.
  unfold collect.
  enough (G : forall acc, fold_left visit cs acc =
            (acc ++ List.filter (fun s => validate_sighting (Some s))
                      (omap extract_sighting_data cs))%list) by apply (G []).
  induction cs as [|c cs IH]; intros acc; [simpl; now rewrite app_nil_r|].
  cbn [fold_left]. rewrite IH. unfold visit.
  change (omap extract_sighting_data (c :: cs))
    with (match extract_sighting_data c with
          | Some s => s :: omap extract_sighting_data cs
          | None => omap extract_sighting_data cs
          end).
  destruct (extract_sighting_data c) as [s|]; [|reflexivity].
  assert (Hv : negb (bool_decide (s = ∅)) && validate_sighting (Some s)
               = validate_sighting (Some s)).
  { unfold validate_sighting. case_bool_decide; reflexivity. }
  rewrite Hv. cbn [List.filter].
  destruct (validate_sighting (Some s)); [|reflexivity].
  now rewrite <- app_assoc.
Qed.

Lemma file_untouched l f : existsb touches_file l = false -> fold_left file_step l f = f.
Proof.
  revert f. induction l as [|ev l IH]; intros f; simpl; [reflexivity|].
  destruct ev; simpl; try apply IH; discriminate.
Qed.

(** What writing an envelope does, call by call. *)
Lemma save_trace makedirs open_file dump output :
  trace (save makedirs open_file dump output) =
  match makedirs, open_file with
  | Ok _, Ok _ => Opened :: match dump with Ok _ => [Wrote output] | Raise _ => [] end
  | _, _ => []
  end.
Proof. destruct makedirs as [[]|], open_file as [[]|], dump as [[]|]; reflexivity. Qed.

Lemma save_result_of makedirs open_file dump output :
  result (save makedirs open_file dump output) = (makedirs;; open_file;; dump).
Proof. destruct makedirs as [[]|], open_file as [[]|], dump as [[]|]; reflexivity. Qed.

(** The [try] block and its handler. *)
Lemma try_block w :
  try_except
    (sightings ← scrape_alerts (page w) 3;
     save (makedirs_output w) (open_output w) (dump_output w) (output_of w sightings))
    (fun e =>
       save (makedirs_error w) (open_error w) (dump_error w) (error_output_of w e))
  = IO (trace (scrape_alerts (page w) 3) ++ trace (save_result w))
       (result (save_result w)).
Proof.
  unfold save_result, try_except.
  destruct (scrape_alerts (page w) 3) as [tr [ss|e]]; cbn [trace result].
  - unfold mbind at 1 2 3, io_bind; cbn [trace result].
    destruct (save _ _ _ (output_of w ss)) as [tr' [[]|e']]; cbn [trace result];
      rewrite <- ?app_assoc; reflexivity.
  - unfold mbind at 1 2 3, io_bind, raise; cbn [trace result app]. reflexivity.
Qed.

(** The [finally] block. *)
Lemma finally_block w :
  (tell CloseContext;; lift (close_context w);; tell CloseBrowser;; lift (close_browser w))
  = IO (closing w) (teardown w).
Proof.
  unfold closing, teardown. destruct (close_context w) as [[]|], (close_browser w) as [[]|];
    reflexivity.
Qed.

(** A run whose secrets are set and whose session opens. *)
Lemma main_run w :
  environ_set w "EBIRD_USERNAME" = true ->
  environ_set w "EBIRD_PASSWORD" = true ->
  session w = Ok tt ->
  main w =
  IO (Launch :: trace (scrape_alerts (page w) 3) ++ trace (save_result w)
        ++ closing w ++ [Stop])
     match stop_playwright w with
     | Raise e => Raise e
     | Ok _ =>
         match teardown w with
         | Raise e => Raise e
         | Ok _ => result (save_result w)
         end
     end.
Proof.
  intros Hu Hp Hs. unfold main. rewrite Hu, Hp. cbn [negb orb].
  pose proof (try_block w) as Ht. unfold output_of, error_output_of in Ht.
  cbv zeta. rewrite Ht, (finally_block w). clear Ht.
  unfold session in Hs.
  destruct (start_playwright w) as [[]|]; [|discriminate].
  destruct (launch w) as [[]|]; [|discriminate].
  destruct (new_context w) as [[]|]; [|discriminate].
  destruct (new_page w) as [[]|]; [|discriminate].
  destruct (stop_playwright w) as [[]|], (teardown w) as [[]|];
    unfold try_finally, mbind, io_bind, tell, lift; cbn [trace result app];
    rewrite <- ?app_assoc; reflexivity.
Qed.

(** A run whose secrets are set and whose session does not open. *)
Lemma main_without_session w e :
  environ_set w "EBIRD_USERNAME" = true ->
  environ_set w "EBIRD_PASSWORD" = true ->
  session w = Raise e ->
  existsb touches_file (trace (main w)) = false /\
  result (main w) =
  match start_playwright w, stop_playwright w with
  | Ok _, Raise e' => Raise e'
  | _, _ => Raise e
  end.
Proof.
  intros Hu Hp Hs. unfold main. rewrite Hu, Hp. cbn [negb orb].
  unfold session in Hs.
  destruct (start_playwright w) as [[]|];
    [|injection Hs as <-; split; reflexivity].
  destruct (launch w) as [[]|]; [destruct (new_context w) as [[]|];
    [destruct (new_page w) as [[]|]; [discriminate|]|]|];
    injection Hs as <-; destruct (stop_playwright w) as [[]|]; split; reflexivity.
Qed.

(** The file after what [main] does about it. *)
Lemma save_result_file w :
  file_after (trace (save_result w)) =
  match result (scrape_alerts (page w) 3) with
  | Ok ss =>
      match makedirs_output w;; open_output w with
      | Ok _ =>
          match dump_output w with
          | Ok _ => Complete (output_of w ss)
          | Raise e =>
              match makedirs_error w;; open_error w with
              | Ok _ =>
                  match dump_error w with
                  | Ok _ => Complete (error_output_of w e)
                  | Raise _ => Incomplete
                  end
              | Raise _ => Incomplete
              end
          end
      | Raise e =>
          match makedirs_error w;; open_error w with
          | Ok _ =>
              match dump_error w with
              | Ok _ => Complete (error_output_of w e)
              | Raise _ => Incomplete
              end
          | Raise _ => Absent
          end
      end
  | Raise e =>
      match makedirs_error w;; open_error w with
      | Ok _ =>
          match dump_error w with
          | Ok _ => Complete (error_output_of w e)
          | Raise _ => Incomplete
          end
      | Raise _ => Absent
      end
  end.
Proof.
  unfold save_result, try_except.
  destruct (result (scrape_alerts (page w) 3)) as [ss|e];
    rewrite ?save_result_of, ?save_trace; unfold raise; cbn [trace result];
    destruct (makedirs_output w) as [[]|], (open_output w) as [[]|],
             (dump_output w) as [[]|];
    cbn [mbind res_bind trace result app];
    rewrite ?save_trace;
    destruct (makedirs_error w) as [[]|], (open_error w) as [[]|],
             (dump_error w) as [[]|]; reflexivity.
Qed.

(** The file after a run whose secrets are set and whose session opens. *)
Lemma main_file w :
  environ_set w "EBIRD_USERNAME" = true ->
  environ_set w "EBIRD_PASSWORD" = true ->
  session w = Ok tt ->
  file_after (trace (main w)) = file_after (trace (save_result w)).
Proof.
  intros Hu Hp Hs. rewrite (main_run w Hu Hp Hs). cbn [trace].
  unfold file_after. cbn [fold_left file_step]. rewrite !fold_left_app.
  rewrite (file_untouched (trace (scrape_alerts (page w) 3)))
    by apply (attempts_events (page w) 3 0 3).
  cbn [fold_left file_step]. apply file_untouched.
  unfold closing. destruct (close_context w); reflexivity.
Qed.

(** The output file after a run whose secrets are set. *)
Lemma output_file_cases w :
  environ_set w "EBIRD_USERNAME" = true ->
  environ_set w "EBIRD_PASSWORD" = true ->
  output_file w =
  match session w with
  | Raise _ => None
  | Ok _ =>
      match result (scrape_alerts (page w) 3) with
      | Ok ss =>
          match write_output w with
          | Ok _ => Some (output_of w ss)
          | Raise e =>
              match write_error w with
              | Ok _ => Some (error_output_of w e)
              | Raise _ => None
              end
          end
      | Raise e =>
          match write_error w with
          | Ok _ => Some (error_output_of w e)
          | Raise _ => None
          end
      end
  end.
Proof.
  intros Hu Hp. unfold output_file.
  destruct (session w) as [[]|e0] eqn:Hs.
  - rewrite (main_file w Hu Hp Hs), save_result_file.
    unfold write_output, write_error.
    destruct (result (scrape_alerts (page w) 3)) as [ss|e];
      destruct (makedirs_output w) as [[]|], (open_output w) as [[]|],
               (dump_output w) as [[]|];
      destruct (makedirs_error w) as [[]|], (open_error w) as [[]|],
               (dump_error w) as [[]|]; reflexivity.
  - destruct (main_without_session w e0 Hu Hp Hs) as [Hf _].
    unfold file_after. now rewrite (file_untouched _ _ Hf).
Qed.

(** An attempt that finds the markers returns what the cards give. *)
Lemma attempt_body_cards run a cs :
  goto run = Ok tt ->
  redirected_to_login (url run) = false ->
  load_state run = Ok tt ->
  markers run = true ->
  cards run = Ok cs ->
  result (attempt_body run a) = Ok (collect cs).
Proof.
  intros Hg Hr Hl Hm Hc. unfold attempt_body.
  rewrite Hg, Hr, Hl, Hm, Hc. reflexivity.
Qed.

Lemma scrape_alerts_first_attempt page ss :
  result (attempt_body (page 0) 0) = Ok ss ->
  result (scrape_alerts page 3) = Ok ss.
Proof.
  intros H. unfold scrape_alerts. now rewrite (attempts_returns _ _ _ _ _ H).
Qed.

(** The run over [three_cards]. *)
Lemma three_cards_written :
  output_file three_cards_world
  = Some (output_of three_cards_world (collect three_cards)).
Proof.
  assert (Hr : result (scrape_alerts (page three_cards_world) 3)
               = Ok (collect three_cards)).
  { apply scrape_alerts_first_attempt, attempt_body_cards;
      solve [reflexivity | vm_compute; reflexivity]. }
  rewrite (output_file_cases three_cards_world) by (vm_compute; reflexivity).
  rewrite Hr. reflexivity.
Qed.

End RunFacts.

Lemma environ_set_false w name :
  environ_set w name = false <-> unset_or_empty w name.
Proof.
  unfold environ_set, unset_or_empty.
  destruct (environ w !! name) as [[|c v]|]; simpl; split; auto; try discriminate.
  - intros [H|H]; discriminate.
Qed.

(** C6, as the code has it.  [scrape_alerts(page)] makes at most three
    attempts.  An attempt whose navigation raises, or whose login fails,
    ends with that exception.  An attempt that returns ends the loop
    with its result; one that raises is followed by a pause of five
    seconds and the next attempt, and the third lets its exception through
    to [main], which writes the ["error"] envelope carrying the text of
    that exception.  An attempt that finds no marker and takes its
    screenshot without a fault returns the empty list: it does not raise,
    so nothing follows it. *)
Theorem retry_policy (w : World) :
  count_attempts (trace (scrape_alerts (page w) 3)) <= 3 /\
  (forall k e, goto (page w k) = Raise e -> fails (page w k) k e) /\
  (forall k,
     goto (page w k) = Ok tt ->
     redirected_to_login (url (page w k)) = true ->
     login (login_page (page w k)) = false ->
     fails (page w k) k "Login failed") /\
  (forall k todo ss,
     result (nth_attempt w k) = Ok ss ->
     attempts (page w) 3 k (S todo) = nth_attempt w k) /\
  (forall e0 ss,
     fails (page w 0) 0 e0 -> result (nth_attempt w 1) = Ok ss ->
     scrape_alerts (page w) 3 =
     IO (trace (nth_attempt w 0) ++ Sleep 5 :: trace (nth_attempt w 1)) (Ok ss)) /\
  (forall e0 e1 ss,
     fails (page w 0) 0 e0 -> fails (page w 1) 1 e1 ->
     result (nth_attempt w 2) = Ok ss ->
     scrape_alerts (page w) 3 =
     IO (trace (nth_attempt w 0) ++ Sleep 5 :: trace (nth_attempt w 1)
           ++ Sleep 5 :: trace (nth_attempt w 2)) (Ok ss)) /\
  (forall e0 e1 e2,
     fails (page w 0) 0 e0 -> fails (page w 1) 1 e1 -> fails (page w 2) 2 e2 ->
     scrape_alerts (page w) 3 =
     IO (trace (nth_attempt w 0) ++ Sleep 5 :: trace (nth_attempt w 1)
           ++ Sleep 5 :: trace (nth_attempt w 2)) (Raise e2)) /\
  (forall e,
     environ_set w "EBIRD_USERNAME" = true ->
     environ_set w "EBIRD_PASSWORD" = true ->
     session w = Ok tt ->
     result (scrape_alerts (page w) 3) = Raise e ->
     write_error w = Ok tt ->
     output_file w = Some (create_output_json (now_error w) [] "error" (Some e))) /\
  (forall k,
     goto (page w k) = Ok tt ->
     redirected_to_login (url (page w k)) = false \/
       (login (login_page (page w k)) = true /\ goto_again (page w k) = Ok tt) ->
     load_state (page w k) = Ok tt ->
     markers (page w k) = false ->
     screenshot (page w k) = Ok tt ->
     result (nth_attempt w k) = Ok []).
Proof.
  unfold nth_attempt, scrape_alerts.
  split; [apply attempts_events|].
  split; [intros k e H; unfold fails, attempt_body; rewrite H; reflexivity|].
  split.
  { intros k Hg Hr Hl. unfold fails, attempt_body. rewrite Hg, Hr, Hl. reflexivity. }
  split; [intros k todo ss H; eapply attempts_returns; exact H|].
  split.
  { intros e0 ss H0 H1.
    rewrite (attempts_retries _ _ _ _ _ H0) by discriminate.
    rewrite (attempts_returns _ _ _ _ _ H1), H1. reflexivity. }
  split.
  { intros e0 e1 ss H0 H1 H2.
    rewrite (attempts_retries _ _ _ _ _ H0) by discriminate.
    rewrite (attempts_retries _ _ _ _ _ H1) by discriminate.
    rewrite (attempts_returns _ _ _ _ _ H2), H2. reflexivity. }
  split.
  { intros e0 e1 e2 H0 H1 H2.
    rewrite (attempts_retries _ _ _ _ _ H0) by discriminate.
    rewrite (attempts_retries _ _ _ _ _ H1) by discriminate.
    rewrite (attempts_gives_up _ _ _ _ _ H2) by reflexivity. reflexivity. }
  split.
  { intros e Hu Hp Hs Hr He. rewrite (output_file_cases w Hu Hp), Hs.
    unfold scrape_alerts in Hr. unfold scrape_alerts. rewrite Hr, He. reflexivity. }
  intros k Hg Hl Hs Hm Hshot. unfold attempt_body. rewrite Hg, Hs, Hm, Hshot.
  destruct Hl as [-> | [-> ->]]; [reflexivity|].
  destruct (redirected_to_login _); reflexivity.
Qed.

(** Three refused connections: three attempts, two pauses, and the error
    envelope carries the text of the third exception. *)
Lemma retry_policy_witness :
  scrape_alerts (page down_world) 3 =
    IO [Attempt 1; Goto; Sleep 5; Attempt 2; Goto; Sleep 5; Attempt 3; Goto]
       (Raise "net::ERR_CONNECTION_REFUSED, attempt 3") /\
  output_file down_world =
    Some (create_output_json (now_error down_world) [] "error"
            (Some "net::ERR_CONNECTION_REFUSED, attempt 3")).
Proof.
  destruct (retry_policy down_world) as (_ & _ & _ & _ & _ & _ & Hthree & Hmain & _).
  assert (Hs : scrape_alerts (page down_world) 3 =
               IO [Attempt 1; Goto; Sleep 5; Attempt 2; Goto; Sleep 5; Attempt 3; Goto]
                  (Raise "net::ERR_CONNECTION_REFUSED, attempt 3")).
  { rewrite (Hthree "net::ERR_CONNECTION_REFUSED, attempt 1"
                    "net::ERR_CONNECTION_REFUSED, attempt 2"
                    "net::ERR_CONNECTION_REFUSED, attempt 3");
      vm_compute; reflexivity. }
  split; [exact Hs|].
  apply Hmain; vm_compute; reflexivity.
Defined.

(** C6 as stated fails.  No marker is found at the first attempt and the
    screenshot raises: the attempt raises, a pause and a second attempt
    follow. *)
Lemma no_markers_can_be_retried :
  markers (page failed_screenshot_world 0) = false /\
  fails (page failed_screenshot_world 0) 0 "Timeout 30000ms exceeded" /\
  scrape_alerts (page failed_screenshot_world) 3 =
    IO [Attempt 1; Goto; Screenshot; Sleep 5; Attempt 2; Goto; Screenshot] (Ok []).
Proof. vm_compute. repeat split. Qed.

(** ** The envelope *)

(** C7.  When the secrets are set, the session opens, the scrape returns
    and the output is written, the file holds the envelope of what the
    scrape returned.  That is the result of the first attempt that did
    not raise: nothing when that attempt found no marker, and otherwise
    the records of the cards of that attempt that the validator accepts,
    in the order of the cards, the others left out.  With no valid
    sighting the envelope has status ["warning"], a count of zero, an
    error message and no sighting; otherwise it has status ["success"],
    the number of valid sightings as count, and the valid sightings. *)
Theorem envelope_of_completed_scrape (w : World) (ss : list (gmap string pyval)) :
  environ_set w "EBIRD_USERNAME" = true ->
  environ_set w "EBIRD_PASSWORD" = true ->
  session w = Ok tt ->
  result (scrape_alerts (page w) 3) = Ok ss ->
  write_output w = Ok tt ->
  exists E k,
    output_file w = Some E /\
    k < 3 /\
    (forall j, j < k -> exists e, fails (page w j) j e) /\
    result (nth_attempt w k) = Ok ss /\
    ((markers (page w k) = false /\ ss = []) \/
     (markers (page w k) = true /\
      exists cs,
        cards (page w k) = Ok cs /\
        ss = List.filter (fun s => validate_sighting (Some s))
                         (omap extract_sighting_data cs))) /\
    (ss = [] ->
       scrape_status (meta E) = "warning" /\ total_sightings (meta E) = 0 /\
       error_message (meta E) = Some "No sightings found" /\ sightings E = []) /\
    (ss <> [] ->
       scrape_status (meta E) = "success" /\ total_sightings (meta E) = length ss /\
       error_message (meta E) = None /\ sightings E = ss).
Proof.
  intros Hu Hp Hs Hr Hw.
  destruct (attempts_first_return (page w) 3 0 3 ss eq_refl Hr)
    as [H0 | (k & Hk & Hrk & Hall)]; [discriminate H0|].
  exists (output_of w ss), k.
  split; [rewrite (output_file_cases w Hu Hp), Hs, Hr, Hw; reflexivity|].
  split; [lia|].
  split; [intros j Hj; apply Hall; lia|].
  split; [exact Hrk|].
  split.
  { apply attempt_body_result in Hrk as [(Hm & _ & ->) | (Hm & cs & Hcs & ->)].
    - left. auto.
    - right. split; [exact Hm|]. exists cs. split; [exact Hcs | apply collect_is_filter]. }
  split; [intros ->; repeat split|].
  intros Hne; destruct ss; [contradiction | repeat split].
Qed.

(** Three cards, the second without a location: status ["success"], two
    sightings, in the order of the cards. *)
Lemma envelope_of_completed_scrape_witness :
  exists E,
    output_file three_cards_world = Some E /\
    scrape_status (meta E) = "success" /\
    total_sightings (meta E) = 2 /\
    map (fun s => s !! "species_common_name") (sightings E)
      = [Some (VStr "Snowy Owl"); Some (VStr "Barn Owl")].
Proof.
  destruct (envelope_of_completed_scrape three_cards_world (collect three_cards))
    as (E & k & HE & _ & _ & _ & _ & _ & Hsome);
    [vm_compute; reflexivity | vm_compute; reflexivity | reflexivity
    | | reflexivity |].
  { apply scrape_alerts_first_attempt, attempt_body_cards;
      solve [reflexivity | vm_compute; reflexivity]. }
  assert (Hlen : length (collect three_cards) = 2) by (vm_compute; reflexivity).
  destruct Hsome as (Hst & Htot & _ & Hss).
  { intros H. rewrite H in Hlen. discriminate Hlen. }
  exists E. split; [exact HE|]. split; [exact Hst|].
  split; [rewrite Htot; exact Hlen|].
  rewrite Hss. vm_compute. reflexivity.
Defined.

(** No marker within the timeout: status ["warning"], nothing in the
    list. *)
Example envelope_without_markers :
  output_file silent_world
  = Some (create_output_json "2024-01-15T12:00:00+00:00" [] "warning"
            (Some "No sightings found")).
Proof. vm_compute. reflexivity. Qed.

(** ** Secrets and the output file *)

(** C8, as the code has it.  When one of the two secrets is unset or
    empty, the run does nothing at all: no browser, no navigation, no
    file.  When both are set, the file is absent after the run exactly
    when opening the browser session raised, or when neither of the two
    writes came to open the file: the scrape raised, or creating the
    directory or opening the file raised in the [try] block, and then
    creating the directory or opening the file raised in the handler.
    And the file holds no envelope, being absent or left unfinished,
    exactly when the session did not open, or when writing the error
    state raised after the scrape or the first write had raised. *)
Theorem absent_output_file (w : World) :
  (unset_or_empty w "EBIRD_USERNAME" \/ unset_or_empty w "EBIRD_PASSWORD" ->
     main w = IO [] (Ok tt) /\ file_after (trace (main w)) = Absent) /\
  (environ_set w "EBIRD_USERNAME" = true ->
   environ_set w "EBIRD_PASSWORD" = true ->
   (file_after (trace (main w)) = Absent <->
      (exists e, session w = Raise e) \/
      ((exists e, (makedirs_error w;; open_error w) = Raise e) /\
       ((exists e, result (scrape_alerts (page w) 3) = Raise e) \/
        (exists e, (makedirs_output w;; open_output w) = Raise e)))) /\
   (output_file w = None <->
      (exists e, session w = Raise e) \/
      ((exists e, write_error w = Raise e) /\
       ((exists e, result (scrape_alerts (page w) 3) = Raise e) \/
        (exists e, write_output w = Raise e))))).
Proof.
  split.
  - intros H.
    assert (Hm : main w = IO [] (Ok tt)).
    { unfold main. destruct H as [H|H]; apply environ_set_false in H; rewrite H;
        [reflexivity | now rewrite orb_true_r]. }
    split; [exact Hm | now rewrite Hm].
  - intros Hu Hp. split.
    + destruct (session w) as [[]|e0] eqn:Hs.
      * rewrite (main_file w Hu Hp Hs), save_result_file.
        destruct (result (scrape_alerts (page w) 3)) as [ss|e];
          destruct (makedirs_output w;; open_output w) as [[]|e1];
          destruct (dump_output w) as [[]|e2];
          destruct (makedirs_error w;; open_error w) as [[]|e3];
          destruct (dump_error w) as [[]|e4];
          split; intros H; try discriminate; eauto 6;
          destruct H as [[? H]|[[? H1] [[? H2]|[? H2]]]]; discriminate.
      * destruct (main_without_session w e0 Hu Hp Hs) as [Hf _].
        unfold file_after. rewrite (file_untouched _ _ Hf). split; eauto.
    + rewrite (output_file_cases w Hu Hp).
      destruct (session w) as [[]|e0]; [|split; eauto].
      destruct (result (scrape_alerts (page w) 3)) as [ss|e];
        destruct (write_output w) as [[]|e1]; destruct (write_error w) as [[]|e2];
        split; intros H; try discriminate; eauto 6;
        destruct H as [[? H]|[[? H1] [[? H2]|[? H2]]]]; discriminate.
Qed.

(** An empty password: nothing is done.  A directory that cannot be
    written to: both secrets are set, and no file is there. *)
Lemma absent_output_file_witness :
  (main no_secrets_world = IO [] (Ok tt) /\
   file_after (trace (main no_secrets_world)) = Absent) /\
  file_after (trace (main read_only_world)) = Absent.
Proof.
  split.
  - apply (proj1 (absent_output_file no_secrets_world)).
    right. right. vm_compute. reflexivity.
  - apply (proj2 (absent_output_file read_only_world));
      [vm_compute; reflexivity | vm_compute; reflexivity|].
    right. split; [|right]; eexists; vm_compute; reflexivity.
Defined.

(** C8 as stated fails.  Both secrets are set and the browser cannot be
    launched: the exception leaves [main] before its [try], and there is
    no file.  Both secrets are set and the disk is full: the file is
    there, and holds no envelope. *)
Lemma no_browser_no_file :
  environ_set no_browser_world "EBIRD_USERNAME" = true /\
  environ_set no_browser_world "EBIRD_PASSWORD" = true /\
  main no_browser_world
    = IO [Launch; Stop] (Raise "Executable doesn't exist at ms-playwright/chromium") /\
  file_after (trace (main no_browser_world)) = Absent /\
  environ_set full_disk_world "EBIRD_USERNAME" = true /\
  environ_set full_disk_world "EBIRD_PASSWORD" = true /\
  file_after (trace (main full_disk_world)) = Incomplete /\
  output_file full_disk_world = None.
Proof.
  assert (Hf : file_after (trace (main full_disk_world)) = Incomplete).
  { rewrite main_file, save_result_file by (vm_compute; reflexivity).
    rewrite (scrape_alerts_first_attempt _ (collect three_cards)); [reflexivity|].
    apply attempt_body_cards; solve [reflexivity | vm_compute; reflexivity]. }
  split; [vm_compute; reflexivity|]. split; [vm_compute; reflexivity|].
  split; [vm_compute; reflexivity|]. split; [vm_compute; reflexivity|].
  split; [vm_compute; reflexivity|]. split; [vm_compute; reflexivity|].
  split; [exact Hf|]. unfold output_file. now rewrite Hf.
Qed.

(** ** The shape of a sighting *)

Section ShapeFacts.

Lemma float_or_none_shape attr v :
  float_or_none attr = Ok v -> v = VNone \/ exists x, v = VFloat x.
Proof.
  unfold float_or_none. destruct attr as [a|]; [|intros [= <-]; auto].
  destruct (PyStr.truthy a); [|intros [= <-]; auto].
  destruct (float a) as [x|e]; simpl; [intros [= <-]; eauto | discriminate].
Qed.

(** The element [a[href*='checklist']] finds has an [href]: the URL
    stored is a string. *)
Lemma checklist_url_is_string card :
  exists str, checklist_url (query_selector card checklist_selector) = VStr str.
Proof.
  unfold checklist_url.
  destruct (query_selector card checklist_selector) as [link|] eqn:E; [|eauto].
  apply query_selector_Some in E as [_ Hm].
  apply matches_tag_attr in Hm as (href & -> & _).
  destruct (_ && _); eauto.
Qed.

Lemma extract_well_formed card s :
  extract_sighting_data card = Some s -> well_formed s.
Proof.
  intros H.
  destruct (extract_text card s H) as (H1 & H2 & H3 & H4 & H5 & H6 & H7 & H8 & H9).
  destruct (extract_identifier card s H) as (_ & _ & _ & Hid).
  destruct (extract_coordinates card s H)
    as (lat0 & lng0 & coords & Hlat & Hlng & _ & Hla & Hlo).
  split; [|split].
  - apply extract_sighting_data_Some, extract_fields_Ok in H
      as (? & ? & ? & _ & _ & _ & ->).
    unfold text_fields, field_names. rewrite !dom_insert_L, dom_empty_L.
    cbn [list_to_set foldr]. set_solver.
  - destruct (checklist_url_is_string card) as [u Hu]. rewrite Hu in H9.
    intros k Hk. cbn [string_fields In] in Hk.
    repeat (destruct Hk as [<- | Hk]; [eauto|]). destruct Hk.
  - apply float_or_none_shape in Hlat, Hlng.
    intros k Hk. cbn [number_fields In] in Hk.
    destruct Hk as [<- | [<- | []]].
    + rewrite Hla. destruct coords; [eauto|]. destruct Hlat as [->|[x ->]]; eauto.
    + rewrite Hlo. destruct coords; [eauto|]. destruct Hlng as [->|[x ->]]; eauto.
Qed.

Lemma environ_unset_no_file w :
  environ_set w "EBIRD_USERNAME" && environ_set w "EBIRD_PASSWORD" = false ->
  output_file w = None.
Proof.
  intros H. unfold output_file, main.
  rewrite <- negb_andb, H. reflexivity.
Qed.

(** What [json.dump] makes of a number or [None]. *)
Lemma dump_value_number v :
  v = VNone \/ (exists x, v = VFloat x) ->
  (v = VNone /\ dump_value v = JNull) \/
  (exists x, v = VFloat x /\ PyFloat.is_finite x = true /\ dump_value v = JNumber x) \/
  (exists x, v = VFloat x /\ PyFloat.is_finite x = false /\
             (dump_value v = JNaN \/ exists neg, dump_value v = JInfinity neg)).
Proof.
  intros [->|[x ->]]; [auto|]. right. unfold dump_value.
  destruct (PyFloat.is_finite x) eqn:F; [left; eauto|].
  right. exists x. split; [reflexivity|]. split; [exact F|].
  destruct x; eauto.
Qed.

(** The sightings of an envelope in the file are records of cards. *)
Lemma written_sighting_extracted w E s :
  output_file w = Some E ->
  In s (sightings E) ->
  exists c, extract_sighting_data c = Some s.
Proof.
  intros HE Hs.
  destruct (environ_set w "EBIRD_USERNAME" && environ_set w "EBIRD_PASSWORD") eqn:Henv;
    [|rewrite (environ_unset_no_file w Henv) in HE; discriminate].
  apply andb_prop in Henv as [Hu Hp].
  rewrite (output_file_cases w Hu Hp) in HE.
  assert (Hin : exists ss, result (scrape_alerts (page w) 3) = Ok ss /\ In s ss).
  { destruct (session w); [|discriminate].
    destruct (result (scrape_alerts (page w) 3)) as [ss|e].
    - destruct (write_output w).
      + injection HE as <-. exists ss. split; [reflexivity|].
        destruct ss; [destruct Hs | exact Hs].
      + destruct (write_error w); [injection HE as <-; destruct Hs | discriminate].
    - destruct (write_error w); [injection HE as <-; destruct Hs | discriminate]. }
  destruct Hin as (ss & Hr & Hss).
  apply attempts_result in Hr as [-> | (k & cs & _ & ->)]; [destruct Hss|].
  rewrite collect_is_filter in Hss. apply filter_In in Hss as [Hss _].
  apply list_elem_of_In, list_elem_of_omap in Hss as (c & _ & Hc). eauto.
Qed.

(** The run over [nan_card]. *)
Lemma nan_card_written :
  output_file nan_world = Some (output_of nan_world (collect [nan_card])).
Proof.
  assert (Hr : result (scrape_alerts (page nan_world) 3) = Ok (collect [nan_card])).
  { apply scrape_alerts_first_attempt, attempt_body_cards;
      solve [reflexivity | vm_compute; reflexivity]. }
  rewrite (output_file_cases nan_world) by (vm_compute; reflexivity).
  rewrite Hr. reflexivity.
Qed.

End ShapeFacts.

(** C9, as the code has it.  Every sighting in the output file holds
    exactly the twelve fields of the data model; ten of them, the
    checklist URL among them, hold a string; latitude and longitude hold
    [None] or a float.  [json.dump] writes [None] as [null] and a finite
    float as a number; a float that is not finite it writes as [NaN],
    [Infinity] or [-Infinity]. *)
Theorem written_sightings_are_well_formed
    (w : World) (E : envelope) (s : gmap string pyval) :
  output_file w = Some E ->
  In s (sightings E) ->
  dom s = list_to_set field_names /\
  (forall k, In k string_fields ->
     exists str, s !! k = Some (VStr str) /\ dump_value (VStr str) = JString str) /\
  (forall k, In k number_fields ->
     exists v,
       s !! k = Some v /\
       ((v = VNone /\ dump_value v = JNull) \/
        (exists x, v = VFloat x /\ PyFloat.is_finite x = true /\
                   dump_value v = JNumber x) \/
        (exists x, v = VFloat x /\ PyFloat.is_finite x = false /\
                   (dump_value v = JNaN \/ exists neg, dump_value v = JInfinity neg)))).
Proof.
  intros HE Hs.
  destruct (written_sighting_extracted w E s HE Hs) as [c Hc].
  destruct (extract_well_formed c s Hc) as (Hdom & Hstr & Hnum).
  split; [exact Hdom|]. split.
  - intros k Hk. destruct (Hstr k Hk) as [str Hk']. eauto.
  - intros k Hk. destruct (Hnum k Hk) as [Hv | [x Hv]]; eexists; (split; [exact Hv|]);
      apply dump_value_number; eauto.
Qed.

Lemma written_sightings_are_well_formed_witness :
  output_file three_cards_world
    = Some (output_of three_cards_world (collect three_cards)) /\
  length (sightings (output_of three_cards_world (collect three_cards))) = 2 /\
  forall s, In s (sightings (output_of three_cards_world (collect three_cards))) ->
    dom s = list_to_set field_names /\
    (forall k, In k string_fields -> exists str, s !! k = Some (VStr str)) /\
    (forall k, In k number_fields ->
       exists v, s !! k = Some v /\ (v = VNone \/ exists x, v = VFloat x)).
Proof.
  split; [exact three_cards_written|].
  split; [vm_compute; reflexivity|].
  intros s Hs.
  destruct (written_sightings_are_well_formed three_cards_world _ s
              three_cards_written Hs) as (Hdom & Hstr & Hnum).
  split; [exact Hdom|]. split.
  - intros k Hk. destruct (Hstr k Hk) as (str & Hk' & _). eauto.
  - intros k Hk. destruct (Hnum k Hk) as (v & Hv & [[-> _] | [(x & -> & _) | (x & -> & _)]]);
      eauto.
Defined.

(** C9 as stated fails.  A card with the three required fields, a
    [data-lat] of ["nan"] and a [data-lng] of ["1e999"] passes the
    validator; the run writes its record, with the latitude as [NaN] and
    the longitude as [Infinity]: neither a number nor [null]. *)
Lemma not_a_number_is_written :
  get_attribute nan_card "data-lat" = Some "nan" /\
  get_attribute nan_card "data-lng" = Some "1e999" /\
  exists E,
    output_file nan_world = Some E /\
    scrape_status (meta E) = "success" /\
    total_sightings (meta E) = 1 /\
    map (fun s => s !! "latitude") (sightings E) = [Some (VFloat NaN)] /\
    map (fun s => dump_value <$> s !! "latitude") (sightings E) = [Some JNaN] /\
    map (fun s => dump_value <$> s !! "longitude") (sightings E)
      = [Some (JInfinity false)].
Proof.
  split; [vm_compute; reflexivity|]. split; [vm_compute; reflexivity|].
  exists (output_of nan_world (collect [nan_card])).
  split; [exact nan_card_written|].
  assert (Hlen : length (collect [nan_card]) = 1) by (vm_compute; reflexivity).
  destruct (collect [nan_card]) as [|s0 l] eqn:Ec; [discriminate Hlen|].
  cbn [output_of create_output_json meta scrape_status total_sightings sightings].
  split; [reflexivity|]. split; [exact Hlen|].
  rewrite <- Ec. vm_compute. repeat split.
Qed.

(* ===================================================================== *)
(** * Further properties *)
(* ===================================================================== *)

(** ** What the coordinate parser accepts *)

Section PatternFacts.
Import PyStr.

Lemma span_digits_more d rest :
  all_chars is_digit d = true ->
  span_digits (d ++ rest) = (d ++ (span_digits rest).1, (span_digits rest).2).
Proof.
  intros Hd. induction d as [|c d IH]; simpl in *.
  - change ("" ++ rest) with rest. now destruct (span_digits rest).
  - apply andb_prop in Hd as [Hc Hd].
    change (String c d ++ rest) with (String c (d ++ rest)). simpl.
    rewrite Hc, (IH Hd). reflexivity.
Qed.

Lemma truthy_append d1 d2 : truthy d1 = true -> truthy (d1 ++ d2) = true.
Proof. destruct d1; [discriminate | reflexivity]. Qed.

(** [number] on a number followed by anything: the match is the number,
    with the digits that follow it. *)
Lemma number_complete g rest :
  is_number g ->
  Re.number (g ++ rest) = Some (g ++ (span_digits rest).1, (span_digits rest).2).
Proof.
  intros (sign & d1 & d2 & -> & Hsign & H1 & N1 & H2 & N2).
  apply truthy_iff in N1, N2.
  destruct d1 as [|c d1]; [discriminate|].
  assert (Hc : is_digit c = true) by (simpl in H1; now apply andb_prop in H1).
  assert (Hm : match (sign ++ String c d1 ++ "." ++ d2) ++ rest with
               | String "-" s' => ("-", s')
               | _ => ("", (sign ++ String c d1 ++ "." ++ d2) ++ rest)
               end = (sign, String c d1 ++ "." ++ d2 ++ rest)).
  { destruct Hsign as [-> | ->].
    - change (("" ++ String c d1 ++ "." ++ d2) ++ rest)
        with (String c ((d1 ++ "." ++ d2) ++ rest)).
      rewrite !append_assoc.
      destruct c as [[] [] [] [] [] [] [] []]; try reflexivity; discriminate.
    - change (("-" ++ String c d1 ++ "." ++ d2) ++ rest)
        with (String "-" ((String c d1 ++ "." ++ d2) ++ rest)).
      rewrite !append_assoc. reflexivity. }
  unfold Re.number. rewrite Hm.
  rewrite (span_digits_app (String c d1) ("." ++ d2 ++ rest)) by (assumption || reflexivity).
  change ("." ++ d2 ++ rest) with (String "." (d2 ++ rest)).
  cbv beta iota zeta. rewrite (span_digits_more d2 rest H2).
  cbv beta iota zeta. rewrite (truthy_append _ _ N2).
  rewrite !append_assoc. reflexivity.
Qed.

Lemma number_gives_is_number s g rest :
  Re.number s = Some (g, rest) -> is_number g /\ s = g ++ rest.
Proof.
  intros (sign & d1 & d2 & Hg & Hs & Hsign & H1 & T1 & H2 & T2)%number_spec.
  split; [|exact Hs].
  exists sign, d1, d2. rewrite <- !truthy_iff. auto 10.
Qed.

Lemma match_here_complete c g1 g2 post :
  Re.in_class c = true -> is_number g1 -> is_number g2 ->
  Re.match_here (String c (g1 ++ "," ++ g2 ++ post))
  = Some (g1, g2 ++ (span_digits post).1).
Proof.
  intros Hc N1 N2. unfold Re.match_here, Re.two_numbers. rewrite Hc.
  rewrite (number_complete g1 _ N1).
  change ("," ++ g2 ++ post) with (String "," (g2 ++ post)).
  change (span_digits (String "," (g2 ++ post)))
    with ("", String "," (g2 ++ post)).
  cbn [fst snd]. rewrite append_empty_r, (number_complete g2 _ N2). reflexivity.
Qed.

Lemma match_here_sound s g1 g2 :
  Re.match_here s = Some (g1, g2) ->
  exists c post,
    s = String c (g1 ++ "," ++ g2 ++ post) /\ Re.in_class c = true /\
    is_number g1 /\ is_number g2.
Proof.
  unfold Re.match_here, Re.two_numbers. intros H.
  destruct s as [|c s1]; [discriminate|].
  destruct (Re.in_class c) eqn:Hc; [|discriminate].
  destruct (Re.number s1) as [[g1' r1]|] eqn:E1; [|discriminate].
  destruct r1 as [|c1 s2]; [discriminate|].
  destruct (Ascii.eqb_spec c1 ",") as [->|Hne];
    [|destruct c1 as [[] [] [] [] [] [] [] []]; try discriminate; contradiction].
  destruct (Re.number s2) as [[g2' post]|] eqn:E2; [|discriminate].
  injection H as -> ->.
  apply number_gives_is_number in E1 as [N1 ->], E2 as [N2 ->].
  exists c, post. auto.
Qed.

Lemma search_sound u g :
  Re.search u = Some g -> exists pre s, u = pre ++ s /\ Re.match_here s = Some g.
Proof.
  induction u as [|c u IH]; cbn [Re.search].
  - discriminate.
  - destruct (Re.match_here (String c u)) as [g0|] eqn:M.
    + intros [= <-]. exists "", (String c u). auto.
    + intros (pre & s & -> & Hs)%IH. exists (String c pre), s. auto.
Qed.

Lemma search_complete pre s g :
  Re.match_here s = Some g -> exists g', Re.search (pre ++ s) = Some g'.
Proof.
  intros H. induction pre as [|c pre IH].
  - exists g. now apply search_of_match_here.
  - change (String c pre ++ s) with (String c (pre ++ s)). now apply search_after.
Qed.

Lemma parse_finds_iff_search u :
  (exists pair, parse_coordinates_from_url (Some u) = Ok (Some pair)) <->
  (exists g, Re.search u = Some g).
Proof.
  unfold parse_coordinates_from_url. split.
  - intros [pair H]. destruct (truthy u); [|discriminate].
    destruct (Re.search u); [eauto | discriminate].
  - intros [[g1 g2] Hg].
    assert (Hu : truthy u = true) by (destruct u; [discriminate | reflexivity]).
    rewrite Hu, Hg. cbn [negb].
    apply search_sound in Hg as (pre & s & _ & Hs).
    unfold Re.match_here, Re.two_numbers in Hs.
    destruct s as [|c s1]; [discriminate|].
    destruct (Re.in_class c); [|discriminate].
    destruct (Re.number s1) as [[g1' r1]|] eqn:E1; [|discriminate].
    destruct r1 as [|c1 s2]; [discriminate|].
    destruct (Ascii.eqb_spec c1 ",") as [->|Hne];
      [|destruct c1 as [[] [] [] [] [] [] [] []]; try discriminate; contradiction].
    destruct (Re.number s2) as [[g2' post]|] eqn:E2; [|discriminate].
    injection Hs as -> ->.
    destruct (float_of_number _ _ _ E1) as [x ->].
    destruct (float_of_number _ _ _ E2) as [y ->].
    simpl. eauto.
Qed.

End PatternFacts.

(** X1.  The parser finds a pair exactly when the URL holds one of the
    three characters [@], [q], [=] directly followed by a number, a comma
    and a number, each number an optional minus sign, digits, a point and
    digits. *)
Theorem parser_finds_exactly_the_pattern (u : string) :
  (exists pair, parse_coordinates_from_url (Some u) = Ok (Some pair)) <->
  (exists pre c g1 g2 post,
     u = pre ++ String c (g1 ++ "," ++ g2 ++ post) /\
     Re.in_class c = true /\ is_number g1 /\ is_number g2).
Proof.
  rewrite parse_finds_iff_search. split.
  - intros [[g1 g2] (pre & s & -> & Hs)%search_sound].
    apply match_here_sound in Hs as (c & post & -> & Hc & N1 & N2).
    exists pre, c, g1, g2, post. auto.
  - intros (pre & c & g1 & g2 & post & -> & Hc & N1 & N2).
    eapply search_complete, match_here_complete; eassumption.
Qed.

(** X2.  [parse_coordinates_from_url] never raises: [float] accepts every
    text the two groups of the pattern can hold. *)
Theorem parser_never_raises (url : option string) :
  exists r, parse_coordinates_from_url url = Ok r.
Proof. apply parse_coordinates_total. Qed.

(** ** The identifier *)

(** X3.  The identifier of an extracted record is twelve characters long,
    each a digit or a letter from [a] to [f]. *)
Theorem identifier_is_twelve_hex_digits (card : node) (s : gmap string pyval) :
  extract_sighting_data card = Some s ->
  exists id,
    s !! "id" = Some (VStr id) /\
    String.length id = 12 /\
    PyStr.all_chars PyStr.is_hex_char id = true.
Proof.
  intros H. destruct (extract_identifier card s H) as (_ & _ & _ & Hid).
  exists (make_id (id_string card)). split; [exact Hid|]. apply make_id_shape.
Qed.

Lemma identifier_is_twelve_hex_digits_witness :
  exists s id,
    extract_sighting_data sample_card = Some s /\
    s !! "id" = Some (VStr id) /\
    String.length id = 12 /\
    PyStr.all_chars PyStr.is_hex_char id = true.
Proof.
  destruct (extracted sample_card) as [s E]; [vm_compute; reflexivity|].
  destruct (identifier_is_twelve_hex_digits sample_card s E) as (id & H).
  exists s, id. split; [exact E | exact H].
Defined.

(** X4.  The identifier is a digest of the plain concatenation: two
    records whose name, location and date concatenate to the same text
    have the same identifier, also when the three fields differ. *)
Theorem identifier_sees_only_the_concatenation
    (card1 card2 : node) (s1 s2 : gmap string pyval)
    (n1 l1 d1 n2 l2 d2 : string) :
  extract_sighting_data card1 = Some s1 ->
  extract_sighting_data card2 = Some s2 ->
  s1 !! "species_common_name" = Some (VStr n1) ->
  s1 !! "location" = Some (VStr l1) ->
  s1 !! "date" = Some (VStr d1) ->
  s2 !! "species_common_name" = Some (VStr n2) ->
  s2 !! "location" = Some (VStr l2) ->
  s2 !! "date" = Some (VStr d2) ->
  n1 ++ l1 ++ d1 = n2 ++ l2 ++ d2 ->
  s1 !! "id" = s2 !! "id".
Proof.
  intros E1 E2 Hn1 Hl1 Hd1 Hn2 Hl2 Hd2 Heq.
  destruct (extract_identifier card1 s1 E1) as (Hn & Hl & Hd & ->).
  destruct (extract_identifier card2 s2 E2) as (Hn' & Hl' & Hd' & ->).
  unfold id_string.
  rewrite Hn in Hn1. rewrite Hl in Hl1. rewrite Hd in Hd1.
  rewrite Hn' in Hn2. rewrite Hl' in Hl2. rewrite Hd' in Hd2.
  injection Hn1 as ->. injection Hl1 as ->. injection Hd1 as ->.
  injection Hn2 as ->. injection Hl2 as ->. injection Hd2 as ->.
  now rewrite Heq.
Qed.

Lemma identifier_sees_only_the_concatenation_witness :
  exists s1 s2,
    extract_sighting_data teal_card_a = Some s1 /\
    extract_sighting_data teal_card_b = Some s2 /\
    s1 !! "species_common_name" <> s2 !! "species_common_name" /\
    s1 !! "location" <> s2 !! "location" /\
    s1 !! "id" = s2 !! "id".
Proof.
  destruct (extracted teal_card_a) as [s1 E1]; [vm_compute; reflexivity|].
  destruct (extracted teal_card_b) as [s2 E2]; [vm_compute; reflexivity|].
  destruct (extract_text teal_card_a s1 E1) as (Hn1 & _ & Hl1 & Hd1 & _).
  destruct (extract_text teal_card_b s2 E2) as (Hn2 & _ & Hl2 & Hd2 & _).
  exists s1, s2. split; [exact E1|]. split; [exact E2|].
  split; [rewrite Hn1, Hn2; vm_compute; discriminate|].
  split; [rewrite Hl1, Hl2; vm_compute; discriminate|].
  eapply (identifier_sees_only_the_concatenation teal_card_a teal_card_b);
    try eassumption.
  vm_compute. reflexivity.
Defined.

(** ** The checklist URL *)

Section ChecklistFacts.
Import PyStr.

Lemma contains_after (sub p s : string) :
  contains sub s = true -> contains sub (p ++ s) = true.
Proof.
  intros H. induction p as [|c p IH]; [exact H|].
  change (String c p ++ s) with (String c (p ++ s)).
  cbn [contains]. rewrite IH. apply orb_true_r.
Qed.

End ChecklistFacts.

(** X5.  The checklist URL of an extracted record is a string: empty when
    the card has no checklist link; otherwise the link's [href], kept as
    it is when it starts with ["http"] and prefixed with
    ["https://ebird.org"] when it does not, so that it always starts with
    ["http"] and still holds ["checklist"]. *)
Theorem checklist_url_is_absolute (card : node) (s : gmap string pyval) :
  extract_sighting_data card = Some s ->
  exists u,
    s !! "checklist_url" = Some (VStr u) /\
    match query_selector card checklist_selector with
    | None => u = ""
    | Some link =>
        exists href,
          get_attribute link "href" = Some href /\
          u = (if PyStr.startswith href "http" then href
               else "https://ebird.org" ++ href) /\
          PyStr.startswith u "http" = true /\
          PyStr.contains "checklist" u = true
    end.
Proof.
  intros H. destruct (extract_text card s H) as (_ & _ & _ & _ & _ & _ & _ & _ & Hu).
  rewrite Hu. unfold checklist_url.
  destruct (query_selector card checklist_selector) as [link|] eqn:E; [|eauto].
  apply query_selector_Some in E as [_ Hm].
  apply matches_tag_attr in Hm as (href & -> & Hc & _).
  assert (Ht : PyStr.truthy href = true) by (destruct href; [discriminate | reflexivity]).
  rewrite Ht. cbn [andb].
  destruct (PyStr.startswith href "http") eqn:Hs; cbn [negb];
    eexists; (split; [reflexivity|]); exists href;
    (split; [reflexivity|]); rewrite Hs; (split; [reflexivity|]).
  - auto.
  - split; [reflexivity | now apply contains_after].
Qed.

Lemma checklist_url_is_absolute_witness :
  exists s,
    extract_sighting_data (link_card "/checklist/S123") = Some s /\
    s !! "checklist_url" = Some (VStr "https://ebird.org/checklist/S123").
Proof.
  destruct (extracted (link_card "/checklist/S123")) as [s E];
    [vm_compute; reflexivity|].
  exists s. split; [exact E|].
  destruct (checklist_url_is_absolute _ s E) as (u & Hu & Hlink).
  rewrite Hu.
  change (query_selector (link_card "/checklist/S123") checklist_selector)
    with (Some (Node "a" {[ "href" := "/checklist/S123" ]} "Checklist" [])) in Hlink.
  destruct Hlink as (href & Hh & -> & _).
  vm_compute in Hh. injection Hh as <-. reflexivity.
Defined.

(** ** Which cards are kept *)

(** X6.  An extracted record passes the validator exactly when the card
    has an element for the name, one for the location and one for the
    date, the name and the location are neither empty nor ["Unknown"], and
    the date, once trimmed, is neither empty nor ["Unknown"].  A card that
    lacks one of the three elements is always rejected. *)
Theorem card_is_kept_iff (card : node) (s : gmap string pyval) :
  extract_sighting_data card = Some s ->
  (validate_sighting (Some s) = true <->
   exists name location date,
     query_selector card species_selector = Some name /\
     inner_text name <> "" /\ inner_text name <> "Unknown" /\
     query_selector card location_selector = Some location /\
     inner_text location <> "" /\ inner_text location <> "Unknown" /\
     query_selector card date_selector = Some date /\
     PyStr.strip (inner_text date) <> "" /\
     PyStr.strip (inner_text date) <> "Unknown").
Proof.
  intros H. destruct (extract_text card s H) as (Hn & _ & Hl & Hd & _).
  rewrite validate_sighting_Some. unfold field_accepted.
  rewrite Hn, Hl, Hd. split.
  - intros ((v1 & [= <-] & N1 & U1) & (v2 & [= <-] & N2 & U2) & (v3 & [= <-] & N3 & U3)).
    cbn [non_empty] in N1, N2, N3.
    destruct (query_selector card species_selector) as [name|];
      [|exfalso; apply U1; reflexivity].
    destruct (query_selector card location_selector) as [location|];
      [|exfalso; apply U2; reflexivity].
    destruct (query_selector card date_selector) as [date|];
      [|exfalso; apply N3; reflexivity].
    cbn [text_or] in *. exists name, location, date.
    repeat split; try assumption; intros E; [apply U1 | apply U2 | apply U3];
      now rewrite E.
  - intros (name & location & date & -> & N1 & U1 & -> & N2 & U2 & -> & N3 & U3).
    cbn [text_or].
    repeat split; eexists; (split; [reflexivity|]); cbn [non_empty];
      (split; [assumption|]); intros [= E]; auto.
Qed.

Lemma card_is_kept_iff_witness :
  exists s1 s2,
    extract_sighting_data (named_card "Snowy Owl" "Central Park" "Jan 15, 2024")
      = Some s1 /\
    validate_sighting (Some s1) = true /\
    extract_sighting_data card_without_location = Some s2 /\
    validate_sighting (Some s2) = false.
Proof.
  destruct (extracted (named_card "Snowy Owl" "Central Park" "Jan 15, 2024"))
    as [s1 E1]; [vm_compute; reflexivity|].
  destruct (extracted card_without_location) as [s2 E2]; [vm_compute; reflexivity|].
  exists s1, s2. split; [exact E1|]. split; [|split; [exact E2|]].
  - apply (card_is_kept_iff _ s1 E1).
    eexists _, _, _.
    repeat split; try (vm_compute; reflexivity); vm_compute; discriminate.
  - apply not_true_is_false. intros Hv.
    apply (card_is_kept_iff _ s2 E2) in Hv
      as (_ & location & _ & _ & _ & _ & Hloc & _).
    vm_compute in Hloc. discriminate.
Defined.

(** ** The retry loop for any number of attempts *)

Section LoopFacts.

Ltac all_outcomes run :=
  unfold attempt_body;
  destruct (goto run) as [[]|]; destruct (redirected_to_login (url run));
  destruct (login (login_page run)); destruct (goto_again run) as [[]|];
  destruct (load_state run) as [[]|]; destruct (markers run);
  destruct (cards run); destruct (screenshot run) as [[]|].

Lemma pauses_app l1 l2 : pauses (l1 ++ l2) = (pauses l1 ++ pauses l2)%list.
Proof. induction l1 as [|[] l1 IH]; simpl; rewrite ?IH; reflexivity. Qed.

(** An attempt takes no pause, and touches nothing but the page. *)
Lemma attempt_body_page_events run a :
  pauses (trace (attempt_body run a)) = [] /\
  forallb is_page_event (trace (attempt_body run a)) = true.
Proof. all_outcomes run; split; reflexivity. Qed.

Lemma attempts_raise page m a todo e :
  a + todo = m ->
  result (attempts page m a todo) = Raise e ->
  0 < todo /\
  fails (page (m - 1)) (m - 1) e /\
  (forall k, a <= k < m -> exists ek, fails (page k) k ek) /\
  count_attempts (trace (attempts page m a todo)) = todo /\
  pauses (trace (attempts page m a todo)) = repeat 5 (todo - 1).
Proof.
  revert a. induction todo as [|todo IH]; intros a Hm H; [discriminate|].
  destruct (attempt_body_events (page a) a) as [Hc _].
  destruct (attempt_body_page_events (page a) a) as [Hp _].
  destruct (result (attempt_body (page a) a)) as [ss|e0] eqn:E.
  { rewrite (attempts_returns _ _ _ _ _ E), E in H. discriminate. }
  destruct (Nat.eq_dec a (m - 1)) as [Ha|Ha].
  - rewrite (attempts_gives_up _ _ _ _ _ E Ha) in H |- *. cbn [result trace] in *.
    injection H as ->. assert (todo = 0) as -> by lia.
    split; [lia|]. split; [now rewrite <- Ha|].
    split; [intros k Hk; assert (k = a) as -> by lia; eauto|].
    split; [exact Hc | exact Hp].
  - rewrite (attempts_retries _ _ _ _ _ E Ha) in H |- *. cbn [result trace] in *.
    destruct (IH (S a)) as (Hpos & Hlast & Hall & Hcount & Hpause); [lia | exact H|].
    split; [lia|]. split; [exact Hlast|].
    split.
    { intros k Hk. destruct (Nat.eq_dec k a) as [->|]; [eauto|]. apply Hall. lia. }
    rewrite count_attempts_app, pauses_app, Hc, Hp. cbn [count_attempts pauses app].
    rewrite Hcount, Hpause. split; [lia|].
    destruct todo; [lia|]. cbn [Nat.sub repeat]. now rewrite Nat.sub_0_r.
Qed.

Lemma attempts_return page m a todo ss :
  a + todo = m ->
  result (attempts page m a todo) = Ok ss ->
  (todo = 0 /\ ss = [] /\ trace (attempts page m a todo) = []) \/
  exists k,
    a <= k < m /\
    result (attempt_body (page k) k) = Ok ss /\
    (forall j, a <= j < k -> exists ej, fails (page j) j ej) /\
    count_attempts (trace (attempts page m a todo)) = S (k - a) /\
    pauses (trace (attempts page m a todo)) = repeat 5 (k - a).
Proof.
  revert a. induction todo as [|todo IH]; intros a Hm H.
  { left. injection H as <-. auto. }
  right.
  destruct (attempt_body_events (page a) a) as [Hc _].
  destruct (attempt_body_page_events (page a) a) as [Hp _].
  destruct (result (attempt_body (page a) a)) as [ss0|e0] eqn:E.
  - rewrite (attempts_returns _ _ _ _ _ E) in H |- *. rewrite E in H.
    injection H as ->. exists a. rewrite Nat.sub_diag.
    split; [lia|]. split; [exact E|]. split; [intros j Hj; lia|].
    split; [exact Hc | exact Hp].
  - destruct (Nat.eq_dec a (m - 1)) as [Ha|Ha].
    { rewrite (attempts_gives_up _ _ _ _ _ E Ha) in H. discriminate. }
    rewrite (attempts_retries _ _ _ _ _ E Ha) in H |- *. cbn [result trace] in *.
    destruct (IH (S a)) as [(-> & _) | (k & Hk & Hr & Hall & Hcount & Hpause)];
      [lia | exact H | lia |].
    exists k. split; [lia|]. split; [exact Hr|].
    split.
    { intros j Hj. destruct (Nat.eq_dec j a) as [->|]; [eauto|]. apply Hall. lia. }
    rewrite count_attempts_app, pauses_app, Hc, Hp. cbn [count_attempts pauses app].
    rewrite Hcount, Hpause.
    replace (k - a) with (S (k - S a)) by lia. split; reflexivity.
Qed.

Lemma attempts_page_events page m a todo :
  forallb is_page_event (trace (attempts page m a todo)) = true.
Proof.
  revert a. induction todo as [|todo IH]; intros a; [reflexivity|].
  destruct (attempt_body_page_events (page a) a) as [_ Hp].
  destruct (attempts_cases page m a todo)
    as [(ss & _ & ->) | [(e & _ & ->) | (e & _ & ->)]]; cbn [trace]; try exact Hp.
  rewrite forallb_app, Hp. cbn. apply IH.
Qed.

End LoopFacts.

(** X7.  When [scrape_alerts(page, max_retries)] raises, every one of the
    [max_retries] attempts has failed, the exception is the one of the
    last attempt, and a pause of five seconds was taken between any two
    attempts, none after the last. *)
Theorem scrape_alerts_raises_the_last_fault
    (page : nat -> PageRun) (max_retries : nat) (e : string) :
  result (scrape_alerts page max_retries) = Raise e ->
  0 < max_retries /\
  fails (page (max_retries - 1)) (max_retries - 1) e /\
  (forall k, k < max_retries -> exists ek, fails (page k) k ek) /\
  count_attempts (trace (scrape_alerts page max_retries)) = max_retries /\
  pauses (trace (scrape_alerts page max_retries)) = repeat 5 (max_retries - 1).
Proof.
  intros H. unfold scrape_alerts in *.
  destruct (attempts_raise page max_retries 0 max_retries e eq_refl H)
    as (Hpos & Hlast & Hall & Hc & Hp).
  repeat split; try assumption. intros k Hk. apply Hall. lia.
Qed.

Lemma scrape_alerts_raises_the_last_fault_witness :
  fails (down_page 4) 4 "net::ERR_CONNECTION_REFUSED, attempt 5" /\
  count_attempts (trace (scrape_alerts down_page 5)) = 5 /\
  pauses (trace (scrape_alerts down_page 5)) = [5; 5; 5; 5].
Proof.
  destruct (scrape_alerts_raises_the_last_fault down_page 5
              "net::ERR_CONNECTION_REFUSED, attempt 5")
    as (_ & Hlast & _ & Hc & Hp); [vm_compute; reflexivity|].
  split; [exact Hlast|]. split; [exact Hc | exact Hp].
Defined.

(** X8.  When [scrape_alerts(page, max_retries)] returns, either
    [max_retries] is zero and nothing was done, or the result is the one
    of the first attempt that did not raise: every attempt before it
    failed and was followed by a pause of five seconds, and no attempt was
    made after it. *)
Theorem scrape_alerts_returns_the_first_success
    (page : nat -> PageRun) (max_retries : nat) (ss : list (gmap string pyval)) :
  result (scrape_alerts page max_retries) = Ok ss ->
  (max_retries = 0 /\ ss = [] /\ trace (scrape_alerts page max_retries) = []) \/
  exists k,
    k < max_retries /\
    result (attempt_body (page k) k) = Ok ss /\
    (forall j, j < k -> exists ej, fails (page j) j ej) /\
    count_attempts (trace (scrape_alerts page max_retries)) = S k /\
    pauses (trace (scrape_alerts page max_retries)) = repeat 5 k.
Proof.
  intros H. unfold scrape_alerts in *.
  destruct (attempts_return page max_retries 0 max_retries ss eq_refl H)
    as [?|(k & Hk & Hr & Hall & Hc & Hp)]; [left; assumption|].
  right. exists k. rewrite Nat.sub_0_r in Hc, Hp.
  repeat split; try assumption; try lia. intros j Hj. apply Hall. lia.
Qed.

Lemma scrape_alerts_returns_the_first_success_witness :
  exists k,
    k < 3 /\
    result (attempt_body (flaky_page 2 three_cards k) k) = Ok (collect three_cards) /\
    (forall j, j < k -> exists ej, fails (flaky_page 2 three_cards j) j ej) /\
    count_attempts (trace (scrape_alerts (flaky_page 2 three_cards) 3)) = S k /\
    pauses (trace (scrape_alerts (flaky_page 2 three_cards) 3)) = repeat 5 k.
Proof.
  assert (H2 : result (attempt_body (flaky_page 2 three_cards 2) 2)
               = Ok (collect three_cards)).
  { apply attempt_body_cards; solve [reflexivity | vm_compute; reflexivity]. }
  assert (Hr : result (scrape_alerts (flaky_page 2 three_cards) 3)
               = Ok (collect three_cards)).
  { unfold scrape_alerts.
    rewrite (attempts_retries _ _ _ _ "net::ERR_CONNECTION_REFUSED, attempt 1")
      by (vm_compute; (reflexivity || discriminate)).
    cbn [result].
    rewrite (attempts_retries _ _ _ _ "net::ERR_CONNECTION_REFUSED, attempt 2")
      by (vm_compute; (reflexivity || discriminate)).
    cbn [result]. rewrite (attempts_returns _ _ _ _ _ H2). exact H2. }
  destruct (scrape_alerts_returns_the_first_success _ _ _ Hr)
    as [(H0 & _) | (k & Hk)]; [discriminate H0|].
  exists k. exact Hk.
Defined.

(** ** Login *)

(** X9.  [login] reports success exactly when the form appeared, both
    inputs and the submit control were found, and filling, clicking and
    the wait that follows all went through; in every other case, a raised
    exception among them, it reports failure. *)
Theorem login_succeeds_iff (lp : LoginPage) :
  login lp = true <->
  wait_form lp = Ok tt /\
  find_username lp = Ok true /\ find_password lp = Ok true /\
  fill_username lp = Ok tt /\ fill_password lp = Ok tt /\
  find_submit lp = Ok true /\
  click_submit lp = Ok tt /\ wait_idle lp = Ok tt.
Proof.
  unfold login, login_steps.
  destruct (wait_form lp) as [[]|]; destruct (find_username lp) as [[]|];
    destruct (find_password lp) as [[]|]; destruct (fill_username lp) as [[]|];
    destruct (fill_password lp) as [[]|]; destruct (find_submit lp) as [[]|];
    destruct (click_submit lp) as [[]|]; destruct (wait_idle lp) as [[]|];
    cbn; split; try discriminate; try tauto;
    intros (H1 & H2 & H3 & H4 & H5 & H6 & H7 & H8); discriminate.
Qed.

(** X10.  Within an attempt, [login] is called exactly when the first
    navigation returned and the page's URL, in lower case, holds
    ["login"] or ["signin"]; and the page is navigated to a second time
    exactly when that login succeeded. *)
Theorem login_only_after_a_redirect (run : PageRun) (attempt : nat) :
  (In LoginForm (trace (attempt_body run attempt)) <->
     goto run = Ok tt /\ redirected_to_login (url run) = true) /\
  (length (List.filter is_goto (trace (attempt_body run attempt))) = 2 <->
     goto run = Ok tt /\ redirected_to_login (url run) = true /\
     login (login_page run) = true) /\
  1 <= length (List.filter is_goto (trace (attempt_body run attempt))) <= 2.
Proof.
  unfold attempt_body.
  destruct (goto run) as [[]|]; destruct (redirected_to_login (url run));
    destruct (login (login_page run)); destruct (goto_again run) as [[]|];
    destruct (load_state run) as [[]|]; destruct (markers run);
    destruct (cards run); destruct (screenshot run) as [[]|];
    cbn; (split; [|split]); try lia; split;
    try (intros (? & ?); discriminate); try (intros (? & ? & ?); discriminate);
    try discriminate; try tauto; try lia; auto;
    intros H; repeat (destruct H as [H|H]; try discriminate H); try destruct H.
Qed.

Example login_wall_passed :
  trace (attempt_body (login_wall working_login [] 0) 0)
    = [Attempt 1; Goto; LoginForm; Goto] /\
  trace (attempt_body (login_wall no_login [] 0) 0)
    = [Attempt 1; Goto; LoginForm] /\
  result (attempt_body (login_wall no_login [] 0) 0) = Raise "Login failed".
Proof. vm_compute. repeat split. Qed.

(** ** The run as a whole *)

Section MainFacts.

(** What the [try] block and its handler come to. *)
Lemma save_result_outcome w :
  result (save_result w) =
  match result (scrape_alerts (page w) 3), write_output w with
  | Ok _, Ok _ => Ok tt
  | _, _ => write_error w
  end.
Proof.
  unfold save_result, try_except, write_output, write_error.
  destruct (result (scrape_alerts (page w) 3)) as [ss|e];
    unfold raise; cbn [result]; rewrite ?save_result_of;
    destruct (makedirs_output w) as [[]|], (open_output w) as [[]|],
             (dump_output w) as [[]|];
    cbn [mbind res_bind result]; rewrite ?save_result_of; reflexivity.
Qed.

(** What is done about the file touches nothing else. *)
Lemma save_result_events w : forallb touches_file (trace (save_result w)) = true.
Proof.
  unfold save_result, try_except.
  destruct (result (scrape_alerts (page w) 3)) as [ss|e];
    unfold raise; cbn [result trace]; rewrite ?save_result_of, ?save_trace;
    destruct (makedirs_output w) as [[]|], (open_output w) as [[]|],
             (dump_output w) as [[]|];
    cbn [mbind res_bind result trace app]; rewrite ?save_trace;
    destruct (makedirs_error w) as [[]|], (open_error w) as [[]|],
             (dump_error w) as [[]|]; reflexivity.
Qed.

Lemma not_among {A} (p : A -> bool) (l : list A) (x : A) :
  forallb p l = true -> p x = false -> ~ In x l.
Proof.
  intros Hall Hx Hin. rewrite forallb_forall in Hall.
  specialize (Hall x Hin). congruence.
Qed.

(** The outcome of a run whose secrets are set. *)
Lemma main_outcome w :
  environ_set w "EBIRD_USERNAME" = true ->
  environ_set w "EBIRD_PASSWORD" = true ->
  result (main w) =
  match start_playwright w with
  | Raise e => Raise e
  | Ok _ =>
      match stop_playwright w with
      | Raise e => Raise e
      | Ok _ =>
          match launch w;; new_context w;; new_page w with
          | Raise e => Raise e
          | Ok _ =>
              match teardown w with
              | Raise e => Raise e
              | Ok _ =>
                  match result (scrape_alerts (page w) 3), write_output w with
                  | Ok _, Ok _ => Ok tt
                  | _, _ => write_error w
                  end
              end
          end
      end
  end.
Proof.
  intros Hu Hp. destruct (session w) as [[]|e0] eqn:Hs.
  - rewrite (main_run w Hu Hp Hs). cbn [result]. rewrite save_result_outcome.
    unfold session in Hs.
    destruct (start_playwright w) as [[]|]; [|discriminate].
    cbn [mbind res_bind] in Hs. rewrite Hs. reflexivity.
  - destruct (main_without_session w e0 Hu Hp Hs) as [_ ->].
    unfold session in Hs.
    destruct (start_playwright w) as [[]|]; cbn [mbind res_bind] in Hs; [|congruence].
    rewrite Hs.
    destruct (stop_playwright w) as [[]|]; reflexivity.
Qed.

End MainFacts.

(** X11.  When the secrets are set and the session opens, a run is: the
    launch, what [scrape_alerts] does on the page, what is done about the
    output file, the [finally] block, and the leaving of the [async with]
    block.  [context.close()] is called on every path, after a fault as
    after a success, once the page and the file are done with;
    [browser.close()] is called after it exactly when [context.close()]
    returned. *)
Theorem context_close_is_called_on_every_path (w : World) :
  environ_set w "EBIRD_USERNAME" = true ->
  environ_set w "EBIRD_PASSWORD" = true ->
  session w = Ok tt ->
  exists file_events,
    trace (main w)
      = (Launch :: trace (scrape_alerts (page w) 3) ++ file_events
           ++ CloseContext
           :: match close_context w with
              | Ok _ => [CloseBrowser]
              | Raise _ => []
              end
           ++ [Stop])%list /\
    forallb is_page_event (trace (scrape_alerts (page w) 3)) = true /\
    forallb touches_file file_events = true /\
    (In CloseBrowser (trace (main w)) <-> close_context w = Ok tt).
Proof.
  intros Hu Hp Hs.
  pose proof (attempts_page_events (page w) 3 0 3) as He.
  fold (scrape_alerts (page w) 3) in He.
  pose proof (save_result_events w) as Hf.
  exists (trace (save_result w)).
  rewrite (main_run w Hu Hp Hs). cbn [trace]. unfold closing.
  split; [reflexivity|]. split; [exact He|]. split; [exact Hf|].
  split.
  - intros [H|H]; [discriminate|].
    apply in_app_or in H as [H|H]; [exfalso; revert H; now apply (not_among _ _ _ He)|].
    apply in_app_or in H as [H|H]; [exfalso; revert H; now apply (not_among _ _ _ Hf)|].
    destruct (close_context w) as [[]|]; [reflexivity|].
    cbn in H. destruct H as [H|[H|[]]]; discriminate.
  - intros ->. right. apply in_or_app. right. apply in_or_app. right.
    cbn. auto.
Qed.

(** A context that does not close: the browser is not closed by
    [main]. *)
Lemma context_close_is_called_on_every_path_witness :
  In CloseContext (trace (main stuck_context_world)) /\
  ~ In CloseBrowser (trace (main stuck_context_world)).
Proof.
  destruct (context_close_is_called_on_every_path stuck_context_world)
    as (file_events & Ht & _ & _ & Hb);
    [vm_compute; reflexivity | vm_compute; reflexivity | vm_compute; reflexivity|].
  split.
  - rewrite Ht. right. apply in_or_app. right. apply in_or_app. right. left. reflexivity.
  - intros H. apply Hb in H. discriminate H.
Defined.

Example refused_run :
  trace (main down_world)
  = [ Launch; Attempt 1; Goto; Sleep 5; Attempt 2; Goto; Sleep 5; Attempt 3; Goto;
      Opened;
      Wrote (create_output_json "2024-01-15T12:01:00+00:00" [] "error"
               (Some "net::ERR_CONNECTION_REFUSED, attempt 3"));
      CloseContext; CloseBrowser; Stop ].
Proof. vm_compute. reflexivity. Qed.

(** X12.  With both secrets set, [main] raises in these cases and no
    other, the first that applies giving the exception: entering the
    [async with] block raised; leaving it raised; launching the browser
    or opening the context or the page raised; [context.close()] or
    [browser.close()] raised; writing the error state raised, after the
    scrape or the first write had raised.  A fault of the scrape alone
    never leaves [main]. *)
Theorem main_raises_exactly_when (w : World) (e : string) :
  environ_set w "EBIRD_USERNAME" = true ->
  environ_set w "EBIRD_PASSWORD" = true ->
  (result (main w) = Raise e <->
   start_playwright w = Raise e \/
   (start_playwright w = Ok tt /\
    (stop_playwright w = Raise e \/
     (stop_playwright w = Ok tt /\
      ((launch w;; new_context w;; new_page w) = Raise e \/
       ((launch w;; new_context w;; new_page w) = Ok tt /\
        (teardown w = Raise e \/
         (teardown w = Ok tt /\
          write_error w = Raise e /\
          ((exists e', result (scrape_alerts (page w) 3) = Raise e') \/
           (exists e', write_output w = Raise e')))))))))).
Proof.
  intros Hu Hp. rewrite (main_outcome w Hu Hp).
  destruct (start_playwright w) as [[]|e0].
  2:{ split; [auto|]. intros [H|[H _]]; [exact H | discriminate H]. }
  destruct (stop_playwright w) as [[]|e1].
  2:{ split; [auto|].
      intros [H|[_ [H|[H _]]]]; [discriminate H | exact H | discriminate H]. }
  destruct (launch w;; new_context w;; new_page w) as [[]|e2].
  2:{ split; [auto 6|].
      intros [H|[_ [H|[_ [H|[H _]]]]]];
        [discriminate H | discriminate H | exact H | discriminate H]. }
  destruct (teardown w) as [[]|e3].
  2:{ split; [auto 8|].
      intros [H|[_ [H|[_ [H|[_ [H|[H _]]]]]]]];
        [discriminate H | discriminate H | discriminate H | exact H | discriminate H]. }
  split.
  - intros H. right. split; [reflexivity|]. right. split; [reflexivity|].
    right. split; [reflexivity|]. right. split; [reflexivity|].
    destruct (result (scrape_alerts (page w) 3)) as [ss|e4];
      [destruct (write_output w) as [[]|e5]; [discriminate H|]|]; eauto.
  - intros [H|[_ [H|[_ [H|[_ [H|(_ & H & Hc)]]]]]]]; try discriminate H.
    destruct (result (scrape_alerts (page w) 3)) as [ss|e4]; [|exact H].
    destruct (write_output w) as [[]|e5]; [|exact H].
    destruct Hc as [[? Hc]|[? Hc]]; discriminate Hc.
Qed.

(** A context that does not close after a good run: the envelope is
    written, and [main] raises. *)
Lemma main_raises_exactly_when_witness :
  result (main stuck_context_world)
    = Raise "Target page, context or browser has been closed" /\
  result (main read_only_world) = Raise "[Errno 30] Read-only file system".
Proof.
  split.
  - apply (proj2 (main_raises_exactly_when stuck_context_world _ eq_refl eq_refl)).
    right. split; [reflexivity|]. right. split; [reflexivity|].
    right. split; [reflexivity|]. left. reflexivity.
  - apply (proj2 (main_raises_exactly_when read_only_world _ eq_refl eq_refl)).
    right. split; [reflexivity|]. right. split; [reflexivity|].
    right. split; [reflexivity|]. right. split; [reflexivity|].
    split; [reflexivity|]. right. eexists. reflexivity.
Defined.

(** ** What reaches the output file *)

Section FileFacts.

Lemma written_envelope w E :
  output_file w = Some E ->
  (exists ss, result (scrape_alerts (page w) 3) = Ok ss /\ E = output_of w ss) \/
  (exists e, E = error_output_of w e).
Proof.
  intros HE.
  destruct (environ_set w "EBIRD_USERNAME" && environ_set w "EBIRD_PASSWORD") eqn:Henv;
    [|rewrite (environ_unset_no_file w Henv) in HE; discriminate].
  apply andb_prop in Henv as [Hu Hp].
  rewrite (output_file_cases w Hu Hp) in HE.
  destruct (session w); [|discriminate].
  destruct (result (scrape_alerts (page w) 3)) as [ss|e].
  - destruct (write_output w).
    + injection HE as <-. eauto.
    + destruct (write_error w); [injection HE as <-; eauto | discriminate].
  - destruct (write_error w); [injection HE as <-; eauto | discriminate].
Qed.

Lemma sightings_output_of w ss : sightings (output_of w ss) = ss.
Proof. destruct ss; reflexivity. Qed.

End FileFacts.

(** X13.  Every sighting in the output file is the record of a card of
    the page, as the extractor returned it, and passes the validator: no
    rejected record and no record of a failed extraction is ever
    written. *)
Theorem written_sightings_are_valid_card_records
    (w : World) (E : envelope) (s : gmap string pyval) :
  output_file w = Some E ->
  In s (sightings E) ->
  validate_sighting (Some s) = true /\
  exists k cs card,
    cards (page w k) = Ok cs /\ In card cs /\
    extract_sighting_data card = Some s.
Proof.
  intros HE Hs.
  apply written_envelope in HE as [(ss & Hr & ->) | (e & ->)]; [|destruct Hs].
  rewrite sightings_output_of in Hs.
  apply attempts_result in Hr as [-> | (k & cs & Hc & ->)]; [destruct Hs|].
  rewrite collect_is_filter in Hs. apply filter_In in Hs as [Hs Hv].
  apply list_elem_of_In, list_elem_of_omap in Hs as (c & Hin & Hc').
  split; [exact Hv|]. exists k, cs, c.
  split; [exact Hc|]. split; [now apply list_elem_of_In | exact Hc'].
Qed.

Lemma written_sightings_are_valid_card_records_witness :
  output_file three_cards_world
    = Some (output_of three_cards_world (collect three_cards)) /\
  forall s, In s (sightings (output_of three_cards_world (collect three_cards))) ->
    validate_sighting (Some s) = true /\
    exists k cs card,
      cards (page three_cards_world k) = Ok cs /\ In card cs /\
      extract_sighting_data card = Some s.
Proof.
  split; [exact three_cards_written|].
  intros s Hs.
  exact (written_sightings_are_valid_card_records _ _ s three_cards_written Hs).
Defined.



(** ** When the extractor gives no record, and what the batch does then *)

Section BatchFacts.

Lemma float_or_none_raises attr :
  (exists e, float_or_none attr = Raise e) <-> unreadable_number attr.
Proof.
  unfold float_or_none, float, unreadable_number. split.
  - intros [e H]. destruct attr as [a|]; [|discriminate].
    destruct (PyStr.truthy a) eqn:T; [|discriminate].
    destruct (PyFloat.parse a) eqn:P; [discriminate|].
    exists a. rewrite <- truthy_iff. auto.
  - intros (a & -> & Ha%truthy_iff & P). rewrite Ha, P. cbn. eauto.
Qed.

Lemma extract_raises card :
  (exists e, float_or_none (get_attribute card "data-lat") = Raise e) \/
  (exists e, float_or_none (get_attribute card "data-lng") = Raise e) ->
  extract_sighting_data card = None.
Proof.
  unfold extract_sighting_data, extract_fields.
  intros [[e H] | [e H]].
  - rewrite H. reflexivity.
  - rewrite H. destruct (float_or_none (get_attribute card "data-lat")); reflexivity.
Qed.

Lemma collect_app cs1 cs2 : collect (cs1 ++ cs2) = (collect cs1 ++ collect cs2)%list.
Proof. rewrite !collect_is_filter, omap_app. apply List.filter_app. Qed.

Lemma collect_one c :
  collect [c] =
  match extract_sighting_data c with
  | Some s => if validate_sighting (Some s) then [s] else []
  | None => []
  end.
Proof.
  rewrite collect_is_filter.
  change (omap extract_sighting_data [c])
    with (match extract_sighting_data c with
          | Some s => s :: omap extract_sighting_data []
          | None => omap extract_sighting_data []
          end).
  destruct (extract_sighting_data c) as [s|]; [|reflexivity].
  cbn. destruct (validate_sighting (Some s)); reflexivity.
Qed.

End BatchFacts.

(** X15.  A card whose [data-lat] or [data-lng] is there, not empty,
    and no number for [float] gives no record, whatever else it holds,
    and adds nothing to the list: the cards around it contribute what
    they would without it. *)
Theorem unreadable_coordinates_drop_the_card (before after : list node) (card : node) :
  unreadable_number (get_attribute card "data-lat") \/
  unreadable_number (get_attribute card "data-lng") ->
  extract_sighting_data card = None /\
  collect (before ++ card :: after) = (collect before ++ collect after)%list.
Proof.
  intros H.
  assert (Hn : extract_sighting_data card = None).
  { apply extract_raises. rewrite !float_or_none_raises. exact H. }
  split; [exact Hn|].
  change (card :: after) with ([card] ++ after)%list.
  rewrite !collect_app, collect_one, Hn. reflexivity.
Qed.

Lemma unreadable_coordinates_drop_the_card_witness :
  extract_sighting_data (map_link_card "N/A") = None /\
  collect ([named_card "Snowy Owl" "Central Park" "Jan 15, 2024"]
             ++ map_link_card "N/A"
             :: [named_card "Barn Owl" "Jamaica Bay" "Jan 16, 2024"])
  = (collect [named_card "Snowy Owl" "Central Park" "Jan 15, 2024"]
     ++ collect [named_card "Barn Owl" "Jamaica Bay" "Jan 16, 2024"])%list.
Proof.
  apply unreadable_coordinates_drop_the_card.
  left. exists "N/A". split; [vm_compute; reflexivity|].
  split; [discriminate | vm_compute; reflexivity].
Defined.

(** X16.  The loop over the cards handles each card on its own: a card
    contributes its record when the extraction gives one and the
    validator accepts it, and nothing otherwise; the cards before and
    after it contribute what they would without it, in the same order.
    So the list returned is never longer than the list of cards. *)
Theorem one_card_never_stops_the_batch (before after : list node) (card : node) :
  collect (before ++ card :: after)
  = (collect before
     ++ match extract_sighting_data card with
        | Some s => if validate_sighting (Some s) then [s] else []
        | None => []
        end
     ++ collect after)%list /\
  length (collect (before ++ card :: after)) <= length (before ++ card :: after).
Proof.
  split.
  - change (card :: after) with ([card] ++ after)%list.
    now rewrite !collect_app, collect_one.
  - generalize (before ++ card :: after)%list. intros cs.
    induction cs as [|c cs IH]; [apply Nat.le_refl|].
    change (c :: cs) with ([c] ++ cs)%list.
    rewrite collect_app, collect_one, !length_app.
    destruct (extract_sighting_data c) as [s|]; [|cbn; lia].
    destruct (validate_sighting (Some s)); cbn; lia.
Qed.

Example unreadable_card_is_skipped :
  map (fun s => s !! "species_common_name")
      (collect [ named_card "Snowy Owl" "Central Park" "Jan 15, 2024";
                 map_link_card "N/A";
                 named_card "Barn Owl" "Jamaica Bay" "Jan 16, 2024" ])
  = [Some (VStr "Snowy Owl"); Some (VStr "Barn Owl")].
Proof. vm_compute. reflexivity. Qed.

(** ** Date and rarity level are stored normalised *)

Section StripFacts.
Import PyStr.

Lemma rstrip_cons c s :
  rstrip (String c s) =
  match rstrip s with
  | EmptyString => if is_space c then EmptyString else String c EmptyString
  | r => String c r
  end.
Proof. reflexivity. Qed.

Lemma rstrip_idempotent s : rstrip (rstrip s) = rstrip s.
Proof.
  induction s as [|c s IH]; [reflexivity|]. rewrite rstrip_cons.
  destruct (rstrip s) as [|c' r] eqn:E.
  - destruct (is_space c) eqn:Hc; [reflexivity|].
    rewrite rstrip_cons. cbn [rstrip]. now rewrite Hc.
  - rewrite rstrip_cons, IH. reflexivity.
Qed.

Lemma lstrip_head s :
  match lstrip s with
  | String c _ => is_space c = false
  | EmptyString => True
  end.
Proof.
  induction s as [|c s IH]; [exact I|]. cbn [lstrip].
  destruct (is_space c) eqn:Hc; [exact IH | exact Hc].
Qed.

Lemma rstrip_keeps_head c s :
  is_space c = false -> exists r, rstrip (String c s) = String c r.
Proof.
  intros Hc. rewrite rstrip_cons. destruct (rstrip s); [rewrite Hc|]; eauto.
Qed.

Lemma lstrip_strip s : lstrip (strip s) = strip s.
Proof.
  unfold strip. pose proof (lstrip_head s) as H.
  destruct (lstrip s) as [|c t]; [reflexivity|].
  destruct (rstrip_keeps_head c t H) as [r ->]. cbn [lstrip]. now rewrite H.
Qed.

Lemma strip_idempotent s : strip (strip s) = strip s.
Proof.
  unfold strip at 1. rewrite lstrip_strip. unfold strip. apply rstrip_idempotent.
Qed.

Lemma lstrip_all_chars p s : all_chars p s = true -> all_chars p (lstrip s) = true.
Proof.
  induction s as [|c s IH]; [auto|]. cbn [lstrip all_chars].
  intros [Hc Hs]%andb_prop. destruct (is_space c); [auto|].
  cbn [all_chars]. now rewrite Hc, Hs.
Qed.

Lemma rstrip_all_chars p s : all_chars p s = true -> all_chars p (rstrip s) = true.
Proof.
  induction s as [|c s IH]; [auto|]. rewrite rstrip_cons. cbn [all_chars].
  intros [Hc Hs]%andb_prop. specialize (IH Hs).
  destruct (rstrip s) as [|c' r].
  - destruct (is_space c); [reflexivity|]. cbn [all_chars]. now rewrite Hc.
  - change (all_chars p (String c (String c' r)))
      with (p c && all_chars p (String c' r)). now rewrite Hc, IH.
Qed.

Lemma lower_char_not_upper c : is_upper (lower_char c) = false.
Proof. destruct c as [[] [] [] [] [] [] [] []]; reflexivity. Qed.

Lemma lower_has_no_capital s :
  all_chars (fun c => negb (is_upper c)) (lower s) = true.
Proof.
  induction s as [|c s IH]; [reflexivity|]. cbn [lower all_chars].
  now rewrite lower_char_not_upper, IH.
Qed.

Lemma lower_without_capital s :
  all_chars (fun c => negb (is_upper c)) s = true -> lower s = s.
Proof.
  induction s as [|c s IH]; [reflexivity|]. cbn [lower all_chars].
  intros [Hc Hs]%andb_prop. rewrite (IH Hs). unfold lower_char.
  apply negb_true_iff in Hc. now rewrite Hc.
Qed.

Lemma lower_strip_lower s : lower (strip (lower s)) = strip (lower s).
Proof.
  apply lower_without_capital. unfold strip.
  apply rstrip_all_chars, lstrip_all_chars, lower_has_no_capital.
Qed.

End StripFacts.

(** X17.  In an extracted record the date neither begins nor ends with
    white space, and the rarity level has no capital letter and neither
    begins nor ends with white space: trimming the date again, or
    lower-casing or trimming the rarity level again, changes nothing. *)
Theorem date_and_rarity_are_normalised (card : node) (s : gmap string pyval) :
  extract_sighting_data card = Some s ->
  exists date rarity,
    s !! "date" = Some (VStr date) /\ PyStr.strip date = date /\
    s !! "rarity_level" = Some (VStr rarity) /\
    PyStr.strip rarity = rarity /\ PyStr.lower rarity = rarity.
Proof.
  intros H.
  destruct (extract_text card s H) as (_ & _ & _ & Hd & _ & _ & _ & Hr & _).
  eexists _, _. split; [exact Hd|]. split; [apply strip_idempotent|].
  split; [exact Hr|]. split; [apply strip_idempotent | apply lower_strip_lower].
Qed.

Lemma date_and_rarity_are_normalised_witness :
  exists s date rarity,
    extract_sighting_data sample_card = Some s /\
    s !! "date" = Some (VStr date) /\ PyStr.strip date = date /\
    s !! "rarity_level" = Some (VStr rarity) /\
    PyStr.strip rarity = rarity /\ PyStr.lower rarity = rarity.
Proof.
  destruct (extracted sample_card) as [s E]; [vm_compute; reflexivity|].
  destruct (date_and_rarity_are_normalised sample_card s E) as (date & rarity & H).
  exists s, date, rarity. split; [exact E | exact H].
Defined.
